(** * Component Tracker: a shallow embedding of [src/App.js]

    The React component [ComponentTracker] keeps a form (name, quantity), a
    list of component records, three busy flags, a cache in [localStorage]
    and talks to one remote endpoint.  The development has three layers:

    - [JS]: the few pieces of the JavaScript platform the component calls
      ([String.prototype.trim], [parseInt], template-literal [ToString],
      property reads, array spread, [JSON.stringify]);
    - [App]: the component itself, one definition per source function, written
      in a small state-and-exception monad over the component's state;
    - the properties of the component.

    Modelling conventions.
    - A JavaScript string is a Rocq [string]; each character stands for one
      code unit, so the model covers the strings whose code units are below
      256.
    - A JavaScript number is the integer it denotes ([Z]); this is exact for
      the safe integers (magnitude below 2^53).  What [parseInt] gives beyond
      them, a double of magnitude 2^53 or more or an infinity, has values of
      its own ([VBig], [VInf]); [NaN] only occurs as a result of [parseInt].
    - [localStorage.setItem] always succeeds (no quota error).
    - React renders again between two events: a handler reads the state the
      event before it left.  [App.task] is the other case, several events
      handled by the handlers of one render. *)

From Stdlib Require Import ZArith String Ascii List Bool Lia DecimalString DecimalPos.
From stdpp Require Import gmap strings list.

Set Warnings "-register-all".

Local Open Scope string_scope.
Local Open Scope Z_scope.

(** ** The JavaScript platform *)
Module JS.

(** Values that JSON data and this program's literals range over. Objects keep
    their properties in insertion order.  [VNum] holds the safe integers;
    [VBig x] is the finite double [x] of magnitude 2^53 or more (an integer),
    [VInf] an infinity. *)
Inductive value : Type :=
| VUndefined
| VNull
| VBool (b : bool)
| VNum (n : Z)
| VStr (s : string)
| VArr (elems : list value)
| VObj (props : list (string * value))
| VBig (x : Z)
| VInf (negative : bool).

(** *** Strings *)

(** White space and line terminators removed by [trim] and skipped by
    [parseInt]: TAB, LF, VT, FF, CR, SP and NBSP. *)
Definition is_white_space (c : ascii) : bool :=
  let n := N_of_ascii c in
  ((n =? 9) || (n =? 10) || (n =? 11) || (n =? 12) || (n =? 13)
   || (n =? 32) || (n =? 160))%N.

Fixpoint trimStart (s : string) : string :=
  match s with
  | EmptyString => EmptyString
  | String c rest => if is_white_space c then trimStart rest else s
  end.

Fixpoint trimEnd (s : string) : string :=
  match s with
  | EmptyString => EmptyString
  | String c rest =>
      match trimEnd rest with
      | EmptyString => if is_white_space c then EmptyString else String c EmptyString
      | rest' => String c rest'
      end
  end.

(** [s.trim()] *)
Definition trim (s : string) : string := trimEnd (trimStart s).

(** A string used as a condition: only the empty string is falsy. *)
Definition truthy_string (s : string) : bool :=
  match s with EmptyString => false | _ => true end.

(** The one-character strings that a Rocq string literal cannot hold. *)
Definition double_quote : string := String (ascii_of_N 34) "".
Definition line_feed : string := String (ascii_of_N 10) "".

(** [xs.join(sep)] on an array of strings. *)
Fixpoint join (sep : string) (xs : list string) : string :=
  match xs with
  | [] => ""
  | [x] => x
  | x :: rest => x +:+ sep +:+ join sep rest
  end.

(** [s.split(sep)[0]] for a one-character separator: the text before its first
    occurrence, the whole string when there is none. *)
Fixpoint split_head (sep : ascii) (s : string) : string :=
  match s with
  | EmptyString => EmptyString
  | String c rest =>
      if Ascii.eqb c sep then EmptyString else String c (split_head sep rest)
  end.

(** *** Numbers *)

(** Decimal text of an integer, as [Number.prototype.toString] gives it for a
    safe integer. *)
Definition string_of_Z (n : Z) : string :=
  NilZero.string_of_int (Z.to_int n).

(** Value of a character as a digit: 0-9, then a-z or A-Z for 10-35. *)
Definition digit_value (c : ascii) : option Z :=
  let n := Z.of_N (N_of_ascii c) in
  if (48 <=? n) && (n <=? 57) then Some (n - 48)
  else if (97 <=? n) && (n <=? 122) then Some (n - 87)
  else if (65 <=? n) && (n <=? 90) then Some (n - 55)
  else None.

Definition radix_digit (R : Z) (c : ascii) : option Z :=
  match digit_value c with
  | Some d => if d <? R then Some d else None
  | None => None
  end.

(** The longest prefix of radix-[R] digits, read as a number; [acc] is the
    value of the digits read so far, [None] when there are none yet. *)
Fixpoint parse_digits (R : Z) (s : string) (acc : option Z) : option Z :=
  match s with
  | EmptyString => acc
  | String c rest =>
      match radix_digit R c with
      | Some d => parse_digits R rest (Some (R * default 0 acc + d))
      | None => acc
      end
  end.

(** A leading sign: its factor and the text after it. *)
Definition strip_sign (s : string) : Z * string :=
  match s with
  | String c rest =>
      if Ascii.eqb c "-" then (-1, rest)
      else if Ascii.eqb c "+" then (1, rest)
      else (1, s)
  | EmptyString => (1, s)
  end.

(** A leading [0x] or [0X]: radix 16 and the text after it, otherwise radix
    10 and the text itself. *)
Definition strip_prefix (s : string) : Z * string :=
  match s with
  | String c0 (String c1 rest) =>
      if Ascii.eqb c0 "0" && (Ascii.eqb c1 "x" || Ascii.eqb c1 "X")
      then (16, rest)
      else (10, s)
  | _ => (10, s)
  end.

(** The integer [parseInt] reads, before it becomes a number: skip leading
    white space, read a sign, strip a hexadecimal prefix, read the longest
    digit prefix.  [None] when there is no digit. *)
Definition parse_integer (str : string) : option Z :=
  let inputString := trimStart str in
  let '(sign, unsigned) := strip_sign inputString in
  let '(R, digits) := strip_prefix unsigned in
  match parse_digits R digits None with
  | Some mathInt => Some (sign * mathInt)
  | None => None
  end.

(** The numbers [parseInt] can give: [NaN], a finite double that is an
    integer, an infinity. *)
Inductive number : Type :=
| NaN
| Finite (x : Z)
| Infinity (negative : bool).

(** The double nearest to a natural number, ties to the even significand:
    itself below 2^53; beyond, the 53 leading bits rounded, and an infinity
    once that reaches 2^1024. *)
Definition round_to_double (m : Z) : number :=
  if m <? 2 ^ 53 then Finite m
  else
    let e := Z.log2 m - 52 in
    let q := m / 2 ^ e in
    let r := m mod 2 ^ e in
    let half := 2 ^ (e - 1) in
    let q' := if (half <? r) || ((r =? half) && Z.odd q) then q + 1 else q in
    if 2 ^ 1024 <=? q' * 2 ^ e then Infinity false else Finite (q' * 2 ^ e).

Definition negate (x : number) : number :=
  match x with
  | NaN => NaN
  | Finite x => Finite (- x)
  | Infinity negative => Infinity (negb negative)
  end.

(** The Number value of an integer. *)
Definition to_double (m : Z) : number :=
  if m <? 0 then negate (round_to_double (- m)) else round_to_double m.

(** [parseInt(str)] without a radix: the Number value of the integer read,
    [NaN] when there is none. *)
Definition parseInt (str : string) : number :=
  match parse_integer str with
  | Some m => to_double m
  | None => NaN
  end.

(** *** Values *)

(** A finite double that is an integer, as a value. *)
Definition of_finite (x : Z) : value :=
  if Z.abs x <? 2 ^ 53 then VNum x else VBig x.

(** [x || 0] for a number [x]: [NaN] and [0] are falsy. *)
Definition or_zero (x : number) : value :=
  match x with
  | NaN => VNum 0
  | Finite x => if x =? 0 then VNum 0 else of_finite x
  | Infinity negative => VInf negative
  end.

(** [ToBoolean]: what [v || w] and [if (v)] test. *)
Definition truthy (v : value) : bool :=
  match v with
  | VUndefined | VNull => false
  | VBool b => b
  | VNum n => negb (n =? 0)
  | VStr s => truthy_string s
  | VArr _ | VObj _ | VBig _ | VInf _ => true
  end.

(** [v || w] *)
Definition or_else (v w : value) : value := if truthy v then v else w.

Fixpoint assoc (k : string) (props : list (string * value)) : option value :=
  match props with
  | [] => None
  | (k', v) :: rest => if String.eqb k k' then Some v else assoc k rest
  end.

(** The text of a finite double of magnitude 2^53 or more, as
    [Number.prototype.toString] gives it: the fewest significant digits that
    read back as the same double (the closest ones when two runs of that
    length do), then zeros up to 21 digits, an exponent beyond. *)

(** [s] with [k] digits times [10 ^ (n - k)] is the double [x]. *)
Definition reads_back (x s k n : Z) : bool :=
  (0 <=? n - k) && (10 ^ (k - 1) <=? s) && (s <? 10 ^ k)
  && match round_to_double (s * 10 ^ (n - k)) with
     | Finite y => y =? x
     | _ => false
     end.

(** The digits [s] for [k] digits and [n] digits before the point, if any. *)
Definition digits_for (x k n : Z) : option Z :=
  let low := x / 10 ^ (n - k) in
  let high := low + 1 in
  match reads_back x low k n, reads_back x high k n with
  | true, true =>
      if x - low * 10 ^ (n - k) <=? high * 10 ^ (n - k) - x
      then Some low else Some high
  | true, false => Some low
  | false, true => Some high
  | false, false => None
  end.

(** The fewest digits, trying [k], [k + 1], ... : the digits and [n]. *)
Fixpoint shortest_digits (fuel : nat) (x k size : Z) : option (Z * Z) :=
  match fuel with
  | O => None
  | S fuel =>
      match digits_for x k size, digits_for x k (size + 1) with
      | Some s, _ => Some (s, size)
      | None, Some s => Some (s, size + 1)
      | None, None => shortest_digits fuel x (k + 1) size
      end
  end.

Fixpoint zeros (count : nat) : string :=
  match count with
  | O => EmptyString
  | S count => String "0" (zeros count)
  end.

Definition big_number_text (x : Z) : string :=
  let magnitude := Z.abs x in
  let size := Z.of_nat (String.length (string_of_Z magnitude)) in
  let text :=
    match shortest_digits 17 magnitude 1 size with
    | Some (s, n) =>
        let digits := string_of_Z s in
        let k := Z.of_nat (String.length digits) in
        if n <=? 21 then digits +:+ zeros (Z.to_nat (n - k))
        else
          match digits with
          | String first EmptyString =>
              String first EmptyString +:+ "e+" +:+ string_of_Z (n - 1)
          | String first rest =>
              String first EmptyString +:+ "." +:+ rest +:+ "e+" +:+ string_of_Z (n - 1)
          | EmptyString => EmptyString
          end
    | None => string_of_Z magnitude
    end in
  if x <? 0 then "-" +:+ text else text.

(** [ToString], as a template literal applies it to an interpolated value;
    [None] is the TypeError for an object whose own [toString] property
    hides the inherited method: no value of this model is callable. *)
Fixpoint ToString (v : value) : option string :=
  match v with
  | VUndefined => Some "undefined"
  | VNull => Some "null"
  | VBool true => Some "true"
  | VBool false => Some "false"
  | VNum n => Some (string_of_Z n)
  | VStr s => Some s
  | VArr elems =>
      texts ← mapM (fun e => match e with
                             | VUndefined | VNull => Some ""
                             | _ => ToString e
                             end) elems;
      Some (join "," texts)
  | VObj props =>
      match assoc "toString" props with
      | Some _ => None
      | None => Some "[object Object]"
      end
  | VBig x => Some (big_number_text x)
  | VInf negative => Some (if negative then "-Infinity" else "Infinity")
  end.

(** [v.k] for the property names this program reads ([length], [id], [name],
    [quantity], [dateAdded]); [None] is the TypeError of reading a property of
    [null] or [undefined]. *)
Definition get (v : value) (k : string) : option value :=
  match v with
  | VUndefined | VNull => None
  | VBool _ | VNum _ | VBig _ | VInf _ => Some VUndefined
  | VStr s =>
      Some (if String.eqb k "length" then VNum (Z.of_nat (String.length s))
            else VUndefined)
  | VArr elems =>
      Some (if String.eqb k "length" then VNum (Z.of_nat (length elems))
            else VUndefined)
  | VObj props => Some (default VUndefined (assoc k props))
  end.

(** [v === 0] *)
Definition is_zero (v : value) : bool :=
  match v with VNum n => n =? 0 | _ => false end.

(** The elements [...v] spreads into an array literal; [None] is the TypeError
    for a value that is not iterable.  A string spreads into its characters. *)
Definition spread (v : value) : option (list value) :=
  match v with
  | VArr elems => Some elems
  | VStr s => Some (map (fun c => VStr (String c EmptyString)) (list_ascii_of_string s))
  | _ => None
  end.

(** *** JSON.stringify *)

Definition hex_digit (n : N) : ascii :=
  ascii_of_N (if (n <? 10)%N then 48 + n else 87 + n)%N.

(** One character inside a JSON string literal. *)
Definition quote_char (c : ascii) : string :=
  let n := N_of_ascii c in
  if (n =? 34)%N then "\" +:+ double_quote
  else if (n =? 92)%N then "\\"
  else if (n =? 8)%N then "\b"
  else if (n =? 9)%N then "\t"
  else if (n =? 10)%N then "\n"
  else if (n =? 12)%N then "\f"
  else if (n =? 13)%N then "\r"
  else if (n <? 32)%N then
    "\u00" +:+ String (hex_digit (n / 16)) (String (hex_digit (n mod 16)) "")
  else String c "".

Fixpoint quote_chars (s : string) : string :=
  match s with
  | EmptyString => EmptyString
  | String c rest => quote_char c +:+ quote_chars rest
  end.

Definition quote (s : string) : string :=
  double_quote +:+ quote_chars s +:+ double_quote.

(** The text of a value; [None] where [JSON.stringify] gives [undefined]. An
    [undefined] array element is written [null], an [undefined] property is
    left out, an infinity is written [null]. *)
Fixpoint stringify (v : value) : option string :=
  match v with
  | VUndefined => None
  | VNull => Some "null"
  | VBool true => Some "true"
  | VBool false => Some "false"
  | VNum n => Some (string_of_Z n)
  | VBig x => Some (big_number_text x)
  | VInf _ => Some "null"
  | VStr s => Some (quote s)
  | VArr elems =>
      Some ("[" +:+ join "," (map (fun e => default "null" (stringify e)) elems) +:+ "]")
  | VObj props =>
      Some ("{" +:+ join "," (omap (fun p => match stringify (snd p) with
                                            | Some t => Some (quote (fst p) +:+ ":" +:+ t)
                                            | None => None
                                            end) props) +:+ "}")
  end.

(** [JSON.stringify(v)] where a string is expected (an argument of
    [localStorage.setItem], a request body): [undefined] reads [undefined]. *)
Definition JSON_stringify (v : value) : string :=
  default "undefined" (stringify v).

(** *** A JSON reader

    [JSON.parse] is a parameter of the component below, so that its theorems
    hold for the platform's parser.  [read_json] is a reader for the JSON texts
    whose values the model has, used to run the component on concrete texts:
    it follows the JSON grammar, and gives [None] also on a number with a
    fraction or an exponent and on a [\u] escape above 00ff, whose values are
    outside the model. *)

Definition is_json_space (c : ascii) : bool :=
  let n := N_of_ascii c in
  ((n =? 32) || (n =? 9) || (n =? 10) || (n =? 13))%N.

Fixpoint skip_space (s : string) : string :=
  match s with
  | String c rest => if is_json_space c then skip_space rest else s
  | EmptyString => EmptyString
  end.

Definition hex_value (c : ascii) : option N :=
  match digit_value c with
  | Some d => if d <? 16 then Some (Z.to_N d) else None
  | None => None
  end.

(** The characters of a string literal after its opening quote, and the text
    after its closing quote. *)
Fixpoint read_chars (s : string) : option (string * string) :=
  match s with
  | EmptyString => None
  | String c rest =>
      let n := N_of_ascii c in
      if (n =? 34)%N then Some (EmptyString, rest)
      else if (n <? 32)%N then None
      else if (n =? 92)%N then
        match rest with
        | String "u"%char (String h1 (String h2 (String h3 (String h4 rest')))) =>
            a ← hex_value h1; b ← hex_value h2;
            c ← hex_value h3; d ← hex_value h4;
            '(str, after) ← read_chars rest';
            if ((a =? 0) && (b =? 0))%N
            then Some (String (ascii_of_N (16 * c + d)) str, after)
            else None
        | String e rest' =>
            let m := N_of_ascii e in
            ch ← (if (m =? 34)%N then Some 34
                  else if (m =? 92)%N then Some 92
                  else if (m =? 47)%N then Some 47
                  else if (m =? 98)%N then Some 8
                  else if (m =? 102)%N then Some 12
                  else if (m =? 110)%N then Some 10
                  else if (m =? 114)%N then Some 13
                  else if (m =? 116)%N then Some 9
                  else None)%N;
            '(str, after) ← read_chars rest';
            Some (String (ascii_of_N ch) str, after)
        | EmptyString => None
        end
      else
        '(str, after) ← read_chars rest;
        Some (String c str, after)
  end.

(** A run of decimal digits: its value, how many there are, the text after. *)
Fixpoint read_decimal (s : string) (acc : Z) (count : nat) : Z * nat * string :=
  match s with
  | String c rest =>
      match radix_digit 10 c with
      | Some d => read_decimal rest (10 * acc + d) (S count)
      | None => (acc, count, s)
      end
  | EmptyString => (acc, count, s)
  end.

Definition starts_with_zero (s : string) : bool :=
  match s with String "0"%char _ => true | _ => false end.

Definition starts_fraction_or_exponent (s : string) : bool :=
  match s with
  | String "."%char _ | String "e"%char _ | String "E"%char _ => true
  | _ => false
  end.

(** An integer literal: an optional minus, then digits with no leading zero;
    its value is the nearest double. *)
Definition read_number (s : string) : option (value * string) :=
  let '(sign, digits) :=
    match s with
    | String "-"%char rest => (-1, rest)
    | _ => (1, s)
    end in
  let '(n, count, after) := read_decimal digits 0 0%nat in
  if (count =? 0)%nat then None
  else if starts_with_zero digits && (1 <? count)%nat then None
  else if starts_fraction_or_exponent after then None
  else Some (or_zero (to_double (sign * n)), after).

Fixpoint read_word (word s : string) : option string :=
  match word, s with
  | EmptyString, _ => Some s
  | String c word', String c' s' => if Ascii.eqb c c' then read_word word' s' else None
  | String _ _, EmptyString => None
  end.

(** Set a property: a repeated name keeps its place and takes the new value. *)
Fixpoint set_prop (k : string) (v : value) (props : list (string * value)) :
    list (string * value) :=
  match props with
  | [] => [(k, v)]
  | (k', v') :: rest =>
      if String.eqb k k' then (k, v) :: rest else (k', v') :: set_prop k v rest
  end.

Fixpoint read_value (fuel : nat) (s : string) : option (value * string) :=
  match fuel with
  | O => None
  | S fuel =>
      match skip_space s with
      | String "n"%char rest => after ← read_word "ull" rest; Some (VNull, after)
      | String "t"%char rest => after ← read_word "rue" rest; Some (VBool true, after)
      | String "f"%char rest => after ← read_word "alse" rest; Some (VBool false, after)
      | String "["%char rest =>
          match skip_space rest with
          | String "]"%char after => Some (VArr [], after)
          | _ => '(elems, after) ← read_elements fuel rest; Some (VArr elems, after)
          end
      | String "{"%char rest =>
          match skip_space rest with
          | String "}"%char after => Some (VObj [], after)
          | _ => '(props, after) ← read_members fuel rest []; Some (VObj props, after)
          end
      | String c rest =>
          if (N_of_ascii c =? 34)%N
          then '(str, after) ← read_chars rest; Some (VStr str, after)
          else read_number (String c rest)
      | EmptyString => None
      end
  end
with read_elements (fuel : nat) (s : string) : option (list value * string) :=
  match fuel with
  | O => None
  | S fuel =>
      '(v, after) ← read_value fuel s;
      match skip_space after with
      | String ","%char rest =>
          '(vs, after') ← read_elements fuel rest; Some (v :: vs, after')
      | String "]"%char rest => Some ([v], rest)
      | _ => None
      end
  end
with read_members (fuel : nat) (s : string) (props : list (string * value)) :
    option (list (string * value) * string) :=
  match fuel with
  | O => None
  | S fuel =>
      match skip_space s with
      | String q rest =>
          if (N_of_ascii q =? 34)%N then
            '(k, after) ← read_chars rest;
            match skip_space after with
            | String ":"%char rest' =>
                '(v, after') ← read_value fuel rest';
                let props' := set_prop k v props in
                match skip_space after' with
                | String ","%char rest'' => read_members fuel rest'' props'
                | String "}"%char rest'' => Some (props', rest'')
                | _ => None
                end
            | _ => None
            end
          else None
      | EmptyString => None
      end
  end.

(** Between two nested calls of [read_value] at least one character is
    consumed, and [read_elements] and [read_members] call it at once, so twice
    the length of the text bounds the depth of the calls. *)
Definition read_json (text : string) : option value :=
  '(v, after) ← read_value (2 * String.length text + 2) text;
  match skip_space after with
  | EmptyString => Some v
  | _ => None
  end.

End JS.

(** ** The component *)
Module App.
Import JS.

(** The options of a [fetch] call that the component sets. *)
Record request_init : Type := {
  method : string;
  content_type : string;
  body : string;
  mode : string
}.

(** What the component does to the world outside its state. *)
Inductive effect : Type :=
| ConsoleLog (msg : string)
| Alert (msg : string)
| Fetch (url : string) (init : option request_init)
| Download (filename mime content : string).

(** The seven [useState] cells, the browser's [localStorage] and the effects
    performed so far, oldest first. *)
Record state : Type := mkState {
  componentName : string;
  quantity : string;
  components : value;
  showList : bool;
  isSending : bool;
  isLoading : bool;
  isSyncing : bool;
  localStorage : gmap string string;
  effects : list effect
}.

(** A computation updates the state and either returns or throws ([None]: an
    uncaught TypeError; the updates queued before it stay). *)
Definition M (A : Type) : Type := state -> state * option A.

Definition ret {A} (a : A) : M A := fun s => (s, Some a).

Definition bind {A B} (m : M A) (k : A -> M B) : M B :=
  fun s => match m s with
           | (s', Some a) => k a s'
           | (s', None) => (s', None)
           end.

Definition throw {A} : M A := fun s => (s, None).

Definition lift {A} (o : option A) : M A :=
  match o with Some a => ret a | None => throw end.

Declare Scope js_scope.
Delimit Scope js_scope with js.
Notation "x <- m ;; k" := (bind m (fun x => k))
  (at level 100, m at next level, right associativity) : js_scope.
Notation "m ;; k" := (bind m (fun _ => k))
  (at level 100, right associativity) : js_scope.
Local Open Scope js_scope.

Definition setComponentName (v : string) : M unit := fun s =>
  (mkState v (quantity s) (components s) (showList s) (isSending s)
     (isLoading s) (isSyncing s) (localStorage s) (effects s), Some tt).

Definition setQuantity (v : string) : M unit := fun s =>
  (mkState (componentName s) v (components s) (showList s) (isSending s)
     (isLoading s) (isSyncing s) (localStorage s) (effects s), Some tt).

Definition setComponents (v : value) : M unit := fun s =>
  (mkState (componentName s) (quantity s) v (showList s) (isSending s)
     (isLoading s) (isSyncing s) (localStorage s) (effects s), Some tt).

Definition setShowList (v : bool) : M unit := fun s =>
  (mkState (componentName s) (quantity s) (components s) v (isSending s)
     (isLoading s) (isSyncing s) (localStorage s) (effects s), Some tt).

Definition setIsSending (v : bool) : M unit := fun s =>
  (mkState (componentName s) (quantity s) (components s) (showList s) v
     (isLoading s) (isSyncing s) (localStorage s) (effects s), Some tt).

Definition setIsLoading (v : bool) : M unit := fun s =>
  (mkState (componentName s) (quantity s) (components s) (showList s)
     (isSending s) v (isSyncing s) (localStorage s) (effects s), Some tt).

Definition setIsSyncing (v : bool) : M unit := fun s =>
  (mkState (componentName s) (quantity s) (components s) (showList s)
     (isSending s) (isLoading s) v (localStorage s) (effects s), Some tt).

(** [localStorage.setItem(key, text)] *)
Definition localStorage_setItem (key text : string) : M unit := fun s =>
  (mkState (componentName s) (quantity s) (components s) (showList s)
     (isSending s) (isLoading s) (isSyncing s)
     (<[key := text]> (localStorage s)) (effects s), Some tt).

Definition perform (e : effect) : M unit := fun s =>
  (mkState (componentName s) (quantity s) (components s) (showList s)
     (isSending s) (isLoading s) (isSyncing s) (localStorage s)
     (effects s ++ [e]), Some tt).

Definition console_log (msg : string) : M unit := perform (ConsoleLog msg).
Definition alert (msg : string) : M unit := perform (Alert msg).
Definition fetch (url : string) (init : option request_init) : M unit :=
  perform (Fetch url init).

Definition SHEET_URL : string :=
  "https://script.google.com/macros/s/AKfycbytbR7fbIgZfEPeWfs2bHZG9W9tQOHwEfz77pDuUVRAz2Wm1LcNm4s0Kxivf4rD-hZN1Q/exec".

(** The state of the first render, over the storage the browser holds. *)
Definition initial (stored : gmap string string) : state :=
  mkState "" "" (VArr []) false false false false stored [].

(** How [await fetch(SHEET_URL)] followed by [await response.json()] ends: the
    request fails, the response is not JSON, or the parsed payload. *)
Inductive fetched : Type :=
| NetworkError
| ParseError
| Payload (data : value).

Section WithParser.

(** [JSON.parse]: the value of a JSON text, [None] for the SyntaxError it
    throws on any other text. *)
Variable JSON_parse : string -> option value.

(** The first half of the mount effect: read the cache. *)
Definition loadCache : M unit := fun s =>
  match localStorage s !! "components" with
  | Some cachedData =>
      if truthy_string cachedData then
        match JSON_parse cachedData with
        | Some parsedData =>
            (setComponents parsedData ;;
             setIsLoading false) s
        | None =>
            (console_log "Error parsing cached data:" ;;
             setIsLoading false) s
        end
      else setIsLoading false s
  | None => setIsLoading false s
  end.

(** [syncWithGoogleSheets] up to its first [await]. *)
Definition syncWithGoogleSheets_start : M unit :=
  setIsSyncing true ;;
  fetch SHEET_URL None.

(** [syncWithGoogleSheets] from the moment its two [await]s have settled. *)
Definition syncWithGoogleSheets_resume (res : fetched) : M unit :=
  match res with
  | Payload data =>
      setComponents (or_else data (VArr [])) ;;
      localStorage_setItem "components" (JSON_stringify (or_else data (VArr [])))
  | NetworkError | ParseError =>
      console_log "Error syncing with Google Sheets:"
  end ;;
  setIsSyncing false.

(** The [useEffect] callback, run once after the first render. *)
Definition mount : M unit :=
  loadCache ;;
  syncWithGoogleSheets_start.

End WithParser.

(** One line of the CSV for an element of the list; reading a property of
    [null] or [undefined] throws, and so does a field that has no text. *)
Definition csv_row (comp : value) : option string :=
  name ← get comp "name";
  name_text ← ToString name;
  qty ← get comp "quantity";
  qty_text ← ToString qty;
  dateAdded ← get comp "dateAdded";
  date_text ← ToString dateAdded;
  Some (double_quote +:+ name_text +:+ double_quote +:+ ","
        +:+ qty_text +:+ ","
        +:+ double_quote +:+ date_text +:+ double_quote).

(** [xs.map(f)]: only an array has the method. *)
Definition array_map {A} (f : value -> option A) (xs : value) : option (list A) :=
  match xs with
  | VArr elems => mapM f elems
  | _ => None
  end.

(** [exportToCSV], in the render whose state is [r]; [iso] is what
    [new Date().toISOString()] gives at the call. *)
Definition exportToCSV (iso : string) (r : state) : M unit :=
  len <- lift (get (components r) "length") ;;
  if is_zero len then
    alert "No components to export"
  else
    let headers := ["Component Name/Part No"; "Quantity"; "Date Added"] in
    rows <- lift (array_map csv_row (components r)) ;;
    let csvContent := join line_feed (join "," headers :: rows) in
    perform (Download ("components-" +:+ split_head "T" iso +:+ ".csv")
                      "text/csv" csvContent).

(** The record [handleSend] builds; [now] is [Date.now()] and [today] is
    [new Date().toLocaleDateString()] at the call. *)
Definition newComponent (now : Z) (today : string) (r : state) : value :=
  VObj [("id", VNum now);
        ("name", VStr (trim (componentName r)));
        ("quantity", or_zero (parseInt (quantity r)));
        ("dateAdded", VStr today)].

(** The condition under which [handleSend] does anything. *)
Definition accepts (r : state) : bool :=
  truthy_string (trim (componentName r))
  && truthy_string (trim (quantity r))
  && negb (isSending r).

(** The body of the POST request: the record without its [id]. *)
Definition post_body (comp : value) : option string :=
  name ← get comp "name";
  qty ← get comp "quantity";
  dateAdded ← get comp "dateAdded";
  Some (JSON_stringify (VObj [("name", name);
                              ("quantity", qty);
                              ("dateAdded", dateAdded)])).

(** [handleSend] up to its [await], in the render whose state is [r]. *)
Definition handleSend (now : Z) (today : string) (r : state) : M unit :=
  if accepts r then
    setIsSending true ;;
    let newComponent := newComponent now today r in
    setComponentName "" ;;
    setQuantity "" ;;
    prior <- lift (spread (components r)) ;;
    let updatedComponents := VArr (prior ++ [newComponent]) in
    setComponents updatedComponents ;;
    localStorage_setItem "components" (JSON_stringify updatedComponents) ;;
    body <- lift (post_body newComponent) ;;
    fetch SHEET_URL (Some {| method := "POST";
                             content_type := "application/json";
                             body := body;
                             mode := "no-cors" |})
  else ret tt.

(** [handleSend] from the moment the POST has settled. *)
Definition handleSend_resume (rejected : bool) : M unit :=
  (if rejected then console_log "Google Sheet updated (no-cors mode)"
   else ret tt) ;;
  setIsSending false.

(** What can happen to a mounted component. *)
Inductive event : Type :=
| ChangeName (v : string)
| ChangeQuantity (v : string)
| ToggleList
| ClickSend (now : Z) (today : string)
| SendSettled (rejected : bool)
| SyncSettled (res : fetched)
| ClickExport (iso : string).

Definition handler (e : event) (r : state) : M unit :=
  match e with
  | ChangeName v => setComponentName v
  | ChangeQuantity v => setQuantity v
  | ToggleList => setShowList (negb (showList r))
  | ClickSend now today => handleSend now today r
  | SendSettled rejected => handleSend_resume rejected
  | SyncSettled res => syncWithGoogleSheets_resume res
  | ClickExport iso => exportToCSV iso r
  end.

(** An event handled right after a render: the handler reads the state it
    then updates. *)
Definition dispatch (e : event) (s : state) : state * option unit :=
  handler e s s.

Definition step (s : state) (e : event) : state := fst (dispatch e s).

(** Events that React separates by a render, as it does for the clicks and
    the key strokes of a user and for the continuations of the two requests:
    each handler reads the state the event before it left. *)
Definition run (s : state) (evs : list event) : state := fold_left step evs s.

(** Events handled with no render in between, as when a script clicks twice
    in one task: all of them run the handlers of the render [r], which read
    the constants of that render while the updates add up in the state. *)
Definition task (r : state) (evs : list event) (s : state) : state :=
  fold_left (fun s e => fst (handler e r s)) evs s.

(** A session: mount over the stored data, then the events in order. *)

Definition session (JSON_parse : string -> option value)
    (stored : gmap string string) (evs : list event) : state :=
  run (fst (mount JSON_parse (initial stored))) evs.

(** The record an event creates, if it creates one. *)
Definition creates (s : state) (e : event) : option value :=
  match e with
  | ClickSend now today =>
      if accepts s then Some (newComponent now today s) else None
  | _ => None
  end.

(** The records created along a run, in order of creation. *)
Fixpoint created (s : state) (evs : list event) : list value :=
  match evs with
  | [] => []
  | e :: rest => option_list (creates s e) ++ created (step s e) rest
  end.

(** *** The data model, for stating properties *)

(** A component record. A record created here carries the timestamp it was
    created at as its [id]; a record read from the remote store need not. *)
Module Rec.
Record t : Type := mk {
  id : option Z;
  name : string;
  quantity : Z;
  dateAdded : string
}.

Definition to_value (c : t) : value :=
  VObj (match id c with Some i => [("id", VNum i)] | None => [] end
        ++ [("name", VStr (name c));
            ("quantity", VNum (quantity c));
            ("dateAdded", VStr (dateAdded c))]).

(** The line of a record in the exported file, as the specification words it:
    the name and the date between double quotes, the quantity bare. *)
Definition spec_csv_line (c : t) : string :=
  double_quote +:+ name c +:+ double_quote +:+ ","
  +:+ string_of_Z (quantity c) +:+ ","
  +:+ double_quote +:+ dateAdded c +:+ double_quote.
End Rec.

Definition spec_csv_header : string :=
  "Component Name/Part No,Quantity,Date Added".

(** The [id] of a record, when it has a numeric one. *)
Definition record_id (v : value) : option Z :=
  match get v "id" with
  | Some (VNum n) => Some n
  | _ => None
  end.

(** The persisted cache holds the JSON text of the in-memory list. *)
Definition cache_in_sync (s : state) : Prop :=
  localStorage s !! "components" = Some (JSON_stringify (components s)).

(** The operations that replace the list: a background fetch that delivers a
    payload, and a submission that passes validation. *)
Definition mutates (s : state) (e : event) : bool :=
  match e with
  | SyncSettled (Payload _) => true
  | ClickSend _ _ => accepts s
  | _ => false
  end.

(** The request an accepted submission sends. *)
Definition post_request (now : Z) (today : string) (s : state) : effect :=
  Fetch SHEET_URL
    (Some {| method := "POST";
             content_type := "application/json";
             body := JSON_stringify
                       (VObj [("name", VStr (trim (componentName s)));
                              ("quantity", or_zero (parseInt (quantity s)));
                              ("dateAdded", VStr today)]);
             mode := "no-cors" |}).

(** The clock readings of the submissions a run accepts, in order; a
    rejected click does not read the clock. *)
Fixpoint clock_readings (s : state) (evs : list event) : list Z :=
  match evs with
  | [] => []
  | e :: rest =>
      match e with
      | ClickSend now _ => if accepts s then [now] else []
      | _ => []
      end ++ clock_readings (step s e) rest
  end.

(** A number: a safe integer, a larger double or an infinity. *)
Definition is_number (q : value) : bool :=
  match q with
  | VNum _ | VBig _ | VInf _ => true
  | _ => false
  end.

(** A number value that is not negative. *)
Definition not_negative (q : value) : Prop :=
  match q with
  | VNum n => 0 <= n
  | VBig x => 0 <= x
  | VInf negative => negative = false
  | _ => False
  end.

(** The quantity text starts, after leading white space, with a minus sign. *)
Definition has_minus_sign (q : string) : bool :=
  match trimStart q with
  | String c _ => Ascii.eqb c "-"
  | EmptyString => false
  end.

(** A freshly mounted form with no list, nothing stored and both fields
    typed in. *)
Definition typed (name qty : string) : state :=
  mkState name qty (VArr []) false false false false ∅ [].

(** *** Sample data *)

Definition record_R1 : Rec.t := Rec.mk (Some 1704067200000) "R1" 5 "1/1/24".
Definition record_R2 : Rec.t := Rec.mk (Some 1704153600000) "R2" 3 "1/2/24".

(** A record as the remote store returns it. *)
Definition remote_R9 : Rec.t := Rec.mk None "R9" 12 "12/31/23".

(** A storage whose cache holds the record R1. *)
Definition stored_R1 : gmap string string :=
  {[ "components" := JSON_stringify (VArr [Rec.to_value record_R1]) ]}.

(** A storage whose cache is not a JSON text. *)
Definition stored_garbage : gmap string string :=
  {[ "components" := "[{id:" ]}.

(** The form filled in over a list of records. *)
Definition filled (cs : list Rec.t) (name qty : string) : state :=
  mkState name qty (VArr (map Rec.to_value cs)) false false false false ∅ [].

(** A mounted component that shows the given records. *)
Definition showing (cs : list Rec.t) : state :=
  mkState "" "" (VArr (map Rec.to_value cs)) true false false false ∅ [].

(** A storage whose cache is the JSON text of [null]. *)
Definition stored_null : gmap string string :=
  {[ "components" := "null" ]}.

(** A filled form over a list that an error object has replaced. *)
Definition over_error_object : state :=
  mkState "R2" "3" (VObj [("error", VStr "quota")]) false false false false ∅ [].

(** Type a record in, send it, let the POST settle, type and send another. *)
Definition two_submissions : list event :=
  [ChangeName "R2"; ChangeQuantity "3"; ClickSend 1704153600000 "1/2/24";
   SendSettled false;
   ChangeName " R3 "; ChangeQuantity "-4"; ClickSend 1704153600500 "1/2/24"].

(** *** Rendering *)

(** One [li] of the list: its [key] and the three values it shows. *)
Record row : Type := mkRow {
  row_key : value;
  row_name : value;
  row_quantity : value;
  row_dateAdded : value
}.

(** What stands under the toggle button when the list is shown. *)
Inductive panel : Type :=
| NoComponents
| Rows (rows : list row).

(** The element tree the component returns, by its varying parts: the
    syncing line, the two inputs, the send button, the text of the toggle
    button, and the list panel when it is shown. *)
Record view : Type := mkView {
  syncing_line : bool;
  name_input : string;
  quantity_input : string;
  send_disabled : bool;
  send_text : string;
  toggle_text : string;
  list_panel : option panel
}.

(** What React accepts as the child of an element: anything but an object;
    an array stands for its elements. *)
Fixpoint valid_child (v : value) : bool :=
  match v with
  | VObj _ => false
  | VArr elems => forallb valid_child elems
  | _ => true
  end.

(** The callback of [components.map] in the list panel; it reads [id], [name],
    [quantity] and [dateAdded].  A [key] that is not [undefined] is turned
    into text, and the three values are children of the row. *)
Definition render_row (component : value) : option row :=
  key ← get component "id";
  _ ← match key with VUndefined => Some "" | _ => ToString key end;
  name ← get component "name";
  qty ← get component "quantity";
  dateAdded ← get component "dateAdded";
  if valid_child name && valid_child qty && valid_child dateAdded
  then Some (mkRow key name qty dateAdded)
  else None.

(** The [return] of [ComponentTracker] in the state [r], as React takes it;
    [None] is a TypeError thrown while the tree is built, or the error React
    raises on a key without text or on an object as a child. *)
Definition render (r : state) : option view :=
  toggle ← (if showList r then Some "Hide List"
            else len ← get (components r) "length";
                 text ← ToString len;
                 Some ("Show List (" +:+ text +:+ ")"));
  shown ← (if showList r then
             len ← get (components r) "length";
             if is_zero len then Some (Some NoComponents)
             else rows ← array_map render_row (components r);
                  Some (Some (Rows rows))
           else Some None);
  Some (mkView (isSyncing r) (componentName r) (quantity r) (isSending r)
          (if isSending r then "Sending..." else "Send") toggle shown).

(** The row of a record: keyed by its [id], [undefined] when it has none. *)
Definition record_row (c : Rec.t) : row :=
  mkRow (match Rec.id c with Some i => VNum i | None => VUndefined end)
        (VStr (Rec.name c)) (VNum (Rec.quantity c)) (VStr (Rec.dateAdded c)).

(** *** Shapes of the list, and runs *)


(** Neither an array nor an object. *)
Definition primitive (v : value) : bool :=
  match v with
  | VArr _ | VObj _ => false
  | _ => true
  end.

(** The property [k] of [v] can be read and is neither an array nor an
    object. *)
Definition primitive_field (v : value) (k : string) : bool :=
  match get v k with
  | Some field => primitive field
  | None => false
  end.

(** An element the export and the render can show: its properties can be
    read, and its [id], [name], [quantity] and [dateAdded] are neither arrays
    nor objects (they may be missing). *)
Definition is_row (v : value) : bool :=
  primitive_field v "id" && primitive_field v "name"
  && primitive_field v "quantity" && primitive_field v "dateAdded".

(** An array of such elements. *)
Definition is_list (v : value) : bool :=
  match v with
  | VArr elems => forallb is_row elems
  | _ => false
  end.


(** If the event delivers a payload, the payload is falsy or satisfies
    [shape]. *)
Definition payload_is (shape : value -> bool) (e : event) : bool :=
  match e with
  | SyncSettled (Payload data) => negb (truthy data) || shape data
  | _ => true
  end.

(** The handler of the event returns normally. *)
Definition returns (s : state) (e : event) : bool :=
  match snd (dispatch e s) with
  | Some _ => true
  | None => false
  end.

(** Every handler along the run returns normally. *)
Fixpoint all_return (s : state) (evs : list event) : bool :=
  match evs with
  | [] => true
  | e :: rest => returns s e && all_return (step s e) rest
  end.

(** The bodies of the POST requests performed so far, oldest first. *)
Definition posted (s : state) : list string :=
  omap (fun eff => match eff with
                   | Fetch _ (Some init) => Some (body init)
                   | _ => None
                   end) (effects s).

(** The addresses of the GET requests performed so far. *)
Definition gets (s : state) : list string :=
  omap (fun eff => match eff with
                   | Fetch url None => Some url
                   | _ => None
                   end) (effects s).

Definition is_send_settled (e : event) : bool :=
  match e with SendSettled _ => true | _ => false end.

Definition is_sync_settled (e : event) : bool :=
  match e with SyncSettled _ => true | _ => false end.

(** The effects the handler of an event can perform. *)
Definition emits (e : event) (eff : effect) : Prop :=
  match eff with
  | ConsoleLog msg =>
      (e = SendSettled true /\ msg = "Google Sheet updated (no-cors mode)") \/
      ((e = SyncSettled NetworkError \/ e = SyncSettled ParseError) /\
       msg = "Error syncing with Google Sheets:")
  | Alert msg =>
      (exists iso, e = ClickExport iso) /\ msg = "No components to export"
  | Fetch url init =>
      (exists now today, e = ClickSend now today) /\
      url = SHEET_URL /\
      exists text, init = Some {| method := "POST";
                                  content_type := "application/json";
                                  body := text;
                                  mode := "no-cors" |}
  | Download filename mime _ =>
      (exists iso, e = ClickExport iso /\
                   filename = "components-" +:+ split_head "T" iso +:+ ".csv") /\
      mime = "text/csv"
  end.

End App.

Import JS App.

Arguments JSON_stringify : simpl never.
Arguments trim : simpl never.
Arguments parseInt : simpl never.

(** ** Properties *)

(** *** Validation *)

Lemma truthy_string_true (s : string) : truthy_string s = true <-> s <> "".
Proof. destruct s; simpl; split; congruence. Qed.

Lemma truthy_string_false (s : string) : truthy_string s = false <-> s = "".
Proof. destruct s; simpl; split; congruence. Qed.

Lemma accepts_true (s : state) :
  accepts s = true <->
  trim (componentName s) <> "" /\ trim (quantity s) <> "" /\ isSending s = false.
Proof.
  unfold accepts.
  rewrite !andb_true_iff, negb_true_iff, !truthy_string_true. tauto.
Qed.

Lemma accepts_false (s : state) :
  accepts s = false <->
  trim (componentName s) = "" \/ trim (quantity s) = "" \/ isSending s = true.
Proof.
  unfold accepts.
  rewrite !andb_false_iff, negb_false_iff, !truthy_string_false. tauto.
Qed.

(** *** [handleSend] in closed form *)

Lemma handleSend_accepted (s : state) (now : Z) (today : string) (l : list value) :
  accepts s = true ->
  spread (components s) = Some l ->
  dispatch (ClickSend now today) s =
  (mkState "" "" (VArr (l ++ [newComponent now today s])) (showList s) true
     (isLoading s) (isSyncing s)
     (<["components" := JSON_stringify (VArr (l ++ [newComponent now today s]))]>
        (localStorage s))
     (effects s ++ [post_request now today s]),
   Some tt).
Proof.
  intros Hacc Hspread.
  unfold dispatch, handler, handleSend. rewrite Hacc.
  unfold bind at 1; cbn [setIsSending]. 
  unfold bind at 1; cbn [setComponentName componentName quantity components
    showList isSending isLoading isSyncing localStorage effects].
  unfold bind at 1; cbn [setQuantity componentName quantity components
    showList isSending isLoading isSyncing localStorage effects].
  rewrite Hspread. reflexivity.
Qed.

Lemma handleSend_throws (s : state) (now : Z) (today : string) :
  accepts s = true ->
  spread (components s) = None ->
  dispatch (ClickSend now today) s =
  (mkState "" "" (components s) (showList s) true (isLoading s) (isSyncing s)
     (localStorage s) (effects s),
   None).
Proof.
  intros Hacc Hspread.
  unfold dispatch, handler, handleSend. rewrite Hacc.
  unfold bind at 1; cbn [setIsSending]. 
  unfold bind at 1; cbn [setComponentName componentName quantity components
    showList isSending isLoading isSyncing localStorage effects].
  unfold bind at 1; cbn [setQuantity componentName quantity components
    showList isSending isLoading isSyncing localStorage effects].
  rewrite Hspread. reflexivity.
Qed.

Lemma handleSend_rejected (s : state) (now : Z) (today : string) :
  accepts s = false -> dispatch (ClickSend now today) s = (s, Some tt).
Proof.
  intros Hacc. unfold dispatch, handler, handleSend. now rewrite Hacc.
Qed.

(** *** Submission *)

(** C1, as the code has it. In a state whose trimmed name and trimmed quantity
    are not empty, where no send is in flight and whose list is an array,
    [handleSend] returns normally, appends exactly one record (the trimmed
    name, the parsed quantity, the date of the day) to the in-memory list,
    stores the JSON text of the extended list under the key [components] and
    touches no other key, and resets both form fields to the empty string. *)
Theorem handleSend_appends_record
    (s : state) (now : Z) (today : string) (l : list value) :
  trim (componentName s) <> "" ->
  trim (quantity s) <> "" ->
  isSending s = false ->
  components s = VArr l ->
  let record := VObj [("id", VNum now);
                      ("name", VStr (trim (componentName s)));
                      ("quantity", or_zero (parseInt (quantity s)));
                      ("dateAdded", VStr today)] in
  let s' := step s (ClickSend now today) in
  snd (dispatch (ClickSend now today) s) = Some tt /\
  components s' = VArr (l ++ [record]) /\
  localStorage s' !! "components" = Some (JSON_stringify (VArr (l ++ [record]))) /\
  (forall key, key <> "components" -> localStorage s' !! key = localStorage s !! key) /\
  componentName s' = "" /\
  quantity s' = "".
Proof.
  intros Hname Hqty Hsending Hlist record s'.
  assert (Hacc : accepts s = true) by (apply accepts_true; auto).
  assert (Hspread : spread (components s) = Some l) by (now rewrite Hlist).
  subst s'. unfold step.
  rewrite (handleSend_accepted s now today l Hacc Hspread).
  cbn [fst snd components localStorage componentName quantity].
  rewrite lookup_insert_eq.
  repeat split; try reflexivity.
  intros key Hkey. now apply lookup_insert_ne.
Qed.

(** C1, as stated, fails: the three conditions on the form do not make the
    list an array.  Over the error object that an unchecked payload has left
    as the list, with name R2, quantity 3 and no send in flight, [handleSend]
    appends nothing: the list is still that object. *)
Lemma handleSend_over_object_appends_nothing :
  ~ (forall (s : state) (now : Z) (today : string),
        trim (componentName s) <> "" ->
        trim (quantity s) <> "" ->
        isSending s = false ->
        exists (l : list value) (record : value),
          components (step s (ClickSend now today)) = VArr (l ++ [record]) /\
          localStorage (step s (ClickSend now today)) !! "components"
            = Some (JSON_stringify (VArr (l ++ [record]))) /\
          componentName (step s (ClickSend now today)) = "" /\
          quantity (step s (ClickSend now today)) = "").
Proof.
  intros Hclaim.
  destruct (Hclaim over_error_object 1704153600000 "1/2/24")
    as (l & record & Hlist & _); try reflexivity.
  - vm_compute. discriminate.
  - vm_compute. discriminate.
  - vm_compute in Hlist. discriminate Hlist.
Qed.

(** C5. When the trimmed name is empty, or the trimmed quantity is empty, or a
    send is in flight, [handleSend] changes nothing: the whole state (list,
    cache, form fields, flags) is the same and no effect is performed, so no
    request is issued. *)
Theorem handleSend_rejects
    (s : state) (now : Z) (today : string) :
  trim (componentName s) = "" \/ trim (quantity s) = "" \/ isSending s = true ->
  dispatch (ClickSend now today) s = (s, Some tt).
Proof.
  intros H. apply handleSend_rejected, accepts_false, H.
Qed.

(** C10. A submission that passes validation sends one POST, whose body is
    the JSON text of the object with exactly the properties [name], [quantity]
    and [dateAdded], holding the trimmed name, the parsed quantity and the date
    of the created record, which has these three and the [id]; the [id] is
    not in the body.  (Over a list that cannot be spread it throws and sends
    nothing.)  The background fetch stores the records of the payload as they
    come, so a record read back from the remote store has no [id] unless the
    store added one. *)
Theorem post_body_has_no_id :
  (forall (s : state) (now : Z) (today : string),
      accepts s = true ->
      creates s (ClickSend now today) =
        Some (VObj [("id", VNum now);
                    ("name", VStr (trim (componentName s)));
                    ("quantity", or_zero (parseInt (quantity s)));
                    ("dateAdded", VStr today)]) /\
      ((snd (dispatch (ClickSend now today) s) = Some tt /\
        effects (step s (ClickSend now today)) =
          (effects s ++
           [Fetch SHEET_URL
              (Some {| method := "POST";
                       content_type := "application/json";
                       body := JSON_stringify
                                 (VObj [("name", VStr (trim (componentName s)));
                                        ("quantity", or_zero (parseInt (quantity s)));
                                        ("dateAdded", VStr today)]);
                       mode := "no-cors" |})])%list) \/
       (snd (dispatch (ClickSend now today) s) = None /\
        spread (components s) = None /\
        effects (step s (ClickSend now today)) = effects s))) /\
  (forall (s : state) (cs : list Rec.t),
      Forall (fun c => Rec.id c = None) cs ->
      components (step s (SyncSettled (Payload (VArr (map Rec.to_value cs)))))
        = VArr (map Rec.to_value cs) /\
      Forall (fun v => get v "id" = Some VUndefined) (map Rec.to_value cs)).
Proof.
  split.
  - intros s now today Hacc. split.
    + cbn [creates]. now rewrite Hacc.
    + unfold step.
      destruct (spread (components s)) as [l |] eqn:Hspread.
      * left. rewrite (handleSend_accepted s now today l Hacc Hspread).
        split; reflexivity.
      * right. rewrite (handleSend_throws s now today Hacc Hspread).
        repeat split.
  - intros s cs Hids. split; [reflexivity |].
    apply Forall_fmap. eapply Forall_impl; [exact Hids |].
    intros [i n q d]; simpl. intros ->. reflexivity.
Qed.

(** *** Background fetch *)


(** C3. When the background fetch fails, by a network error or by a response
    that is not JSON, the handler returns normally, the only effect is one
    line on the console, and the list, the cache and the form are as
    before. *)
Theorem sync_failure_keeps_state (s : state) (res : fetched) :
  res = NetworkError \/ res = ParseError ->
  let s' := step s (SyncSettled res) in
  snd (dispatch (SyncSettled res) s) = Some tt /\
  components s' = components s /\
  localStorage s' = localStorage s /\
  componentName s' = componentName s /\
  quantity s' = quantity s /\
  effects s' = (effects s ++ [ConsoleLog "Error syncing with Google Sheets:"])%list.
Proof.
  intros [-> | ->]; cbn; repeat split; reflexivity.
Qed.

(** *** Cache and list *)

(** C9. After a list-replacing operation that completes (a background fetch
    that delivers a payload, a submission that passes validation), the cache
    under [components] is the JSON text of the in-memory list. *)
Theorem mutation_leaves_cache_in_sync (s : state) (e : event) :
  mutates s e = true ->
  snd (dispatch e s) = Some tt ->
  cache_in_sync (step s e).
Proof.
  intros Hmut Hdone. unfold cache_in_sync.
  destruct e as [v | v | | now today | rejected | [ | | data] | iso];
    try discriminate Hmut.
  - cbn [mutates] in Hmut.
    destruct (spread (components s)) as [l |] eqn:Hspread.
    + unfold step. rewrite (handleSend_accepted s now today l Hmut Hspread).
      cbn [fst components localStorage]. apply lookup_insert_eq.
    + rewrite (handleSend_throws s now today Hmut Hspread) in Hdone.
      discriminate Hdone.
  - cbn. apply lookup_insert_eq.
Qed.

(** The invariant of C9 is kept by every event, so it holds from the first
    completed list-replacing operation to the end of the session. *)
Lemma step_keeps_cache_in_sync (s : state) (e : event) :
  cache_in_sync s -> cache_in_sync (step s e).
Proof.
  unfold cache_in_sync. intros Hsync.
  destruct e as [v | v | | now today | rejected | [ | | data] | iso];
    try exact Hsync.
  - destruct (accepts s) eqn:Hacc.
    + destruct (spread (components s)) as [l |] eqn:Hspread.
      * unfold step. rewrite (handleSend_accepted s now today l Hacc Hspread).
        cbn [fst components localStorage]. apply lookup_insert_eq.
      * unfold step. rewrite (handleSend_throws s now today Hacc Hspread).
        exact Hsync.
    + unfold step. now rewrite (handleSend_rejected s now today Hacc).
  - destruct rejected; exact Hsync.
  - cbn. apply lookup_insert_eq.
  - unfold step, dispatch, handler, exportToCSV, bind.
    destruct (get (components s) "length") as [len |]; [| exact Hsync].
    cbn [lift ret].
    destruct (is_zero len); [exact Hsync |].
    destruct (array_map csv_row (components s)); exact Hsync.
Qed.

Lemma run_keeps_cache_in_sync (evs : list event) (s : state) :
  cache_in_sync s -> cache_in_sync (run s evs).
Proof.
  revert s. induction evs as [| e evs IH]; intros s Hsync; [exact Hsync |].
  apply IH, step_keeps_cache_in_sync, Hsync.
Qed.

(** *** Quantity *)

Lemma digit_value_nonneg (c : ascii) (d : Z) : digit_value c = Some d -> 0 <= d.
Proof.
  unfold digit_value.
  repeat match goal with
         | |- context [if ?b then _ else _] => destruct b eqn:?
         end; intros [= <-]; lia.
Qed.

Lemma radix_digit_nonneg (R : Z) (c : ascii) (d : Z) :
  radix_digit R c = Some d -> 0 <= d.
Proof.
  unfold radix_digit. destruct (digit_value c) as [d' |] eqn:Hd; [| discriminate].
  destruct (d' <? R); intros [= <-]. eapply digit_value_nonneg, Hd.
Qed.

Lemma parse_digits_nonneg (R : Z) (s : string) (acc : option Z) (n : Z) :
  0 <= R ->
  (forall a, acc = Some a -> 0 <= a) ->
  parse_digits R s acc = Some n ->
  0 <= n.
Proof.
  intros HR. revert acc.
  induction s as [| c rest IH]; intros acc Hacc; simpl.
  - intros ->. now apply Hacc.
  - destruct (radix_digit R c) as [d |] eqn:Hd.
    + apply IH. intros a [= <-].
      apply radix_digit_nonneg in Hd.
      destruct acc as [a |]; simpl; [specialize (Hacc a eq_refl) |]; nia.
    + intros ->. now apply Hacc.
Qed.

Lemma strip_prefix_radix (s : string) : 0 <= fst (strip_prefix s).
Proof.
  unfold strip_prefix. destruct s as [| c0 [| c1 rest]]; simpl; try lia.
  destruct (_ && _); simpl; lia.
Qed.

Lemma parse_integer_nonneg (q : string) (n : Z) :
  has_minus_sign q = false -> parse_integer q = Some n -> 0 <= n.
Proof.
  unfold has_minus_sign, parse_integer, strip_sign.
  intros Hsign.
  assert (Hdigits : forall s m,
             (let '(R, digits) := strip_prefix s in
              match parse_digits R digits None with
              | Some mathInt => Some (1 * mathInt)
              | None => None
              end) = Some m -> 0 <= m).
  { intros s m. pose proof (strip_prefix_radix s) as HR.
    destruct (strip_prefix s) as [R digits]; simpl in HR.
    destruct (parse_digits R digits None) as [k |] eqn:Hk; [| discriminate].
    intros [= <-]. apply parse_digits_nonneg in Hk; [lia | exact HR | discriminate]. }
  destruct (trimStart q) as [| c rest].
  - apply Hdigits.
  - rewrite Hsign. destruct (Ascii.eqb c "+"); apply Hdigits.
Qed.

(** Below 2^53 the Number value of an integer is the integer. *)
Lemma to_double_exact (m : Z) : Z.abs m < 2 ^ 53 -> to_double m = Finite m.
Proof.
  unfold to_double, round_to_double. set (bound := 2 ^ 53). intros Hm.
  destruct (Z.ltb_spec m 0).
  - destruct (Z.ltb_spec (- m) bound); [| lia].
    cbn [negate]. f_equal. lia.
  - destruct (Z.ltb_spec m bound); [reflexivity | lia].
Qed.

Lemma or_zero_exact (m : Z) : Z.abs m < 2 ^ 53 -> or_zero (to_double m) = VNum m.
Proof.
  intros Hm. rewrite (to_double_exact m Hm). unfold or_zero, of_finite.
  destruct (Z.eqb_spec m 0) as [-> | _]; [reflexivity |].
  destruct (Z.ltb_spec (Z.abs m) (2 ^ 53)); [reflexivity | lia].
Qed.

Lemma round_to_double_sign (m : Z) :
  0 <= m ->
  match round_to_double m with
  | NaN => False
  | Finite x => 0 <= x
  | Infinity negative => negative = false
  end.
Proof.
  intros Hm. unfold round_to_double.
  destruct (m <? 2 ^ 53); [exact Hm |].
  set (e := Z.log2 m - 52).
  assert (Hpow : 0 <= 2 ^ e) by (apply Z.pow_nonneg; lia).
  assert (Hq : 0 <= m / 2 ^ e) by (apply Z_div_nonneg_nonneg; lia).
  destruct (2 ^ 1024 <=? _); [reflexivity |].
  destruct (_ || _); nia.
Qed.

Lemma or_zero_is_number (x : number) : is_number (or_zero x) = true.
Proof.
  destruct x as [| x | negative]; try reflexivity.
  unfold or_zero, of_finite. destruct (x =? 0); [reflexivity |].
  destruct (Z.abs x <? 2 ^ 53); reflexivity.
Qed.

Lemma or_zero_not_negative (m : Z) : 0 <= m -> not_negative (or_zero (to_double m)).
Proof.
  intros Hm. unfold to_double. destruct (Z.ltb_spec m 0); [lia |].
  pose proof (round_to_double_sign m Hm) as Hsign.
  destruct (round_to_double m) as [| x | negative]; [contradiction | | exact Hsign].
  unfold or_zero, of_finite. destruct (x =? 0); [cbn; lia |].
  destruct (Z.abs x <? 2 ^ 53); exact Hsign.
Qed.

(** C4, as the code has it. For every state that passes validation, the
    quantity of the created record is a number: what [parseInt] gives for the
    quantity text, and 0 when that is [NaN].  When the integer at the start
    of the text (a sign, then digits) has a magnitude below 2^53, the
    quantity is that integer, sign included; beyond, it is the nearest
    double, an infinity at the end.  It is 0 when the text has no integer at
    its start, and it is not negative whenever the text does not start with
    a minus sign. *)
Theorem stored_quantity_is_parsed_number
    (s : state) (now : Z) (today : string) :
  accepts s = true ->
  exists (record q : value),
    creates s (ClickSend now today) = Some record /\
    get record "quantity" = Some q /\
    is_number q = true /\
    (parse_integer (quantity s) = None -> q = VNum 0) /\
    (forall m, parse_integer (quantity s) = Some m ->
               q = or_zero (to_double m) /\
               (Z.abs m < 2 ^ 53 -> q = VNum m)) /\
    (has_minus_sign (quantity s) = false -> not_negative q).
Proof.
  intros Hacc.
  exists (newComponent now today s), (or_zero (parseInt (quantity s))).
  cbn [creates]. rewrite Hacc.
  split; [reflexivity |]. split; [reflexivity |].
  split; [apply or_zero_is_number |].
  unfold parseInt. split; [| split].
  - now intros ->.
  - intros m ->. split; [reflexivity | apply or_zero_exact].
  - intros Hsign.
    destruct (parse_integer (quantity s)) as [m |] eqn:Hm; [| cbn; lia].
    apply or_zero_not_negative. eapply parse_integer_nonneg; eassumption.
Qed.

(** C4, as stated, fails: the form accepts the quantity text -5 and the
    created record stores the quantity -5. *)
Lemma stored_quantity_can_be_negative :
  ~ (forall (s : state) (now : Z) (today : string),
        accepts s = true ->
        exists (record : value) (n : Z),
          creates s (ClickSend now today) = Some record /\
          get record "quantity" = Some (VNum n) /\
          0 <= n /\
          (parseInt (quantity s) = NaN -> n = 0)).
Proof.
  intros Hclaim.
  destruct (Hclaim (typed "R2" "-5") 1700000000000 "1/1/2024" eq_refl)
    as (record & n & Hrecord & Hqty & Hnonneg & _).
  vm_compute in Hrecord. injection Hrecord as <-.
  vm_compute in Hqty. injection Hqty as <-.
  lia.
Qed.

(** *** Identifiers *)

Lemma record_id_newComponent (now : Z) (today : string) (s : state) :
  record_id (newComponent now today s) = Some now.
Proof. reflexivity. Qed.

Lemma created_ids_readings (evs : list event) (s : state) :
  map record_id (created s evs) = map Some (clock_readings s evs).
Proof.
  revert s. induction evs as [| e evs IH]; intros s; [reflexivity |].
  cbn [created clock_readings]. rewrite !map_app, IH. f_equal.
  destruct e as [v | v | | now today | rejected | res | iso]; try reflexivity.
  cbn [creates]. destruct (accepts s); reflexivity.
Qed.

(** C6, as the code has it. The identifier of a created record is the clock
    reading of its submission: whatever the render, the record a submission
    creates carries the reading it was given, and along a run the identifiers
    of the created records are, in order, the clock readings of the accepted
    submissions (a rejected click reads no clock).  So the identifiers are
    pairwise distinct exactly when these readings are, and two accepted
    submissions that read the same value create records with the same
    identifier. *)
Theorem created_ids_are_clock_readings (s : state) (evs : list event) :
  (forall (r : state) (now : Z) (today : string) (record : value),
      creates r (ClickSend now today) = Some record ->
      record_id record = Some now) /\
  map record_id (created s evs) = map Some (clock_readings s evs) /\
  (NoDup (map record_id (created s evs)) <-> NoDup (clock_readings s evs)).
Proof.
  split; [| split].
  - intros r now today record. cbn [creates].
    destruct (accepts r); [| discriminate]. intros [= <-].
    apply record_id_newComponent.
  - apply created_ids_readings.
  - rewrite created_ids_readings. apply (NoDup_fmap Some).
Qed.

(** C6, as stated, fails: two submissions that read the same clock value
    (the second one typed after the first has settled) create two records
    with the same identifier. *)
Lemma created_ids_can_repeat :
  ~ (forall (s : state) (evs : list event),
        NoDup (map record_id (created s evs))).
Proof.
  intros Hclaim.
  specialize (Hclaim (typed "R2" "3")
                [ClickSend 1700000000000 "1/1/2024";
                 SendSettled false;
                 ChangeName "R3";
                 ChangeQuantity "4";
                 ClickSend 1700000000000 "1/1/2024"]).
  vm_compute in Hclaim.
  apply NoDup_cons in Hclaim as [Hfresh _].
  apply Hfresh. left.
Qed.

(** *** Export *)

Lemma csv_row_record (c : Rec.t) :
  csv_row (Rec.to_value c) = Some (Rec.spec_csv_line c).
Proof. destruct c as [[i |] n q d]; reflexivity. Qed.

Lemma csv_rows_records (cs : list Rec.t) :
  mapM csv_row (map Rec.to_value cs) = Some (map Rec.spec_csv_line cs).
Proof.
  induction cs as [| c cs IH]; [reflexivity |].
  cbn [map mapM]. rewrite csv_row_record, IH. reflexivity.
Qed.



(** *** Startup *)

Section Startup.

Variable JSON_parse : string -> option value.

(** The empty text is not a JSON text. *)
Hypothesis JSON_parse_empty : JSON_parse "" = None.

Lemma loadCache_components (stored : gmap string string) :
  components (fst (loadCache JSON_parse (initial stored))) =
  match stored !! "components" with
  | Some blob => default (VArr []) (JSON_parse blob)
  | None => VArr []
  end.
Proof.
  unfold loadCache. cbn [localStorage initial].
  destruct (stored !! "components") as [blob |]; [| reflexivity].
  destruct blob as [| c rest]; [now rewrite JSON_parse_empty |].
  cbn [truthy_string]. destruct (JSON_parse (String c rest)); reflexivity.
Qed.

Lemma mount_effects (stored : gmap string string) :
  effects (fst (mount JSON_parse (initial stored))) = [Fetch SHEET_URL None] \/
  effects (fst (mount JSON_parse (initial stored))) =
    [ConsoleLog "Error parsing cached data:"; Fetch SHEET_URL None].
Proof.
  unfold mount, bind, loadCache. cbn [localStorage initial].
  destruct (stored !! "components") as [[| c rest] |]; [now left | | now left].
  cbn [truthy_string]. destruct (JSON_parse (String c rest)); [now left | now right].
Qed.

(** C8. The cache load at startup leaves in the list the parsed value of the
    text stored under [components] when that text is JSON, and the empty list
    when nothing is stored or the text is not JSON.  In every case the mount
    effect returns normally, raises no alert and leaves the storage as it
    was. *)
Theorem startup_cache_load (stored : gmap string string) :
  let s := fst (mount JSON_parse (initial stored)) in
  (stored !! "components" = None -> components s = VArr []) /\
  (forall blob, stored !! "components" = Some blob ->
                JSON_parse blob = None -> components s = VArr []) /\
  (forall blob parsed, stored !! "components" = Some blob ->
                       JSON_parse blob = Some parsed -> components s = parsed) /\
  snd (mount JSON_parse (initial stored)) = Some tt /\
  (forall msg, Alert msg ∉ effects s) /\
  localStorage s = stored.
Proof.
  intros s.
  assert (Hlist : components s =
                  components (fst (loadCache JSON_parse (initial stored)))).
  { subst s. unfold mount, bind.
    destruct (loadCache JSON_parse (initial stored)) as [s1 [[] |]] eqn:Hload;
      reflexivity. }
  rewrite Hlist, loadCache_components.
  split; [| split; [| split; [| split; [| split]]]].
  - now intros ->.
  - now intros blob -> ->.
  - now intros blob parsed -> ->.
  - unfold mount, bind, loadCache. cbn [localStorage initial].
    destruct (stored !! "components") as [[| c rest] |]; try reflexivity.
    cbn [truthy_string]. destruct (JSON_parse (String c rest)); reflexivity.
  - intros msg Halert. subst s.
    destruct (mount_effects stored) as [Heff | Heff]; rewrite Heff in Halert;
      repeat (apply elem_of_cons in Halert as [Halert | Halert];
              [discriminate Halert |]);
      now apply elem_of_nil in Halert.
  - subst s. unfold mount, bind, loadCache. cbn [localStorage initial].
    destruct (stored !! "components") as [[| c rest] |]; try reflexivity.
    cbn [truthy_string]. destruct (JSON_parse (String c rest)); reflexivity.
Qed.

End Startup.

(** ** The specification's test cases, run on the model *)

Example no_cache_and_failing_fetch :
  components (session read_json ∅ [SyncSettled NetworkError]) = VArr [].
Proof. reflexivity. Qed.

Example cached_record_and_no_network :
  components (session read_json stored_R1 [SyncSettled NetworkError])
  = VArr [Rec.to_value record_R1].
Proof. vm_compute. reflexivity. Qed.

Example garbage_cache_is_empty_list :
  components (session read_json stored_garbage []) = VArr [] /\
  effects (session read_json stored_garbage [])
  = [ConsoleLog "Error parsing cached data:"; Fetch SHEET_URL None].
Proof. vm_compute. split; reflexivity. Qed.

Example submit_R2 :
  let s := run (typed "" "")
             [ChangeName "R2"; ChangeQuantity "3"; ClickSend 1704153600000 "1/2/24"] in
  components s = VArr [Rec.to_value record_R2] /\
  localStorage s !! "components" = Some (JSON_stringify (VArr [Rec.to_value record_R2])) /\
  componentName s = "" /\ quantity s = "".
Proof. vm_compute. repeat split; reflexivity. Qed.

Example submit_empty_name :
  step (typed "   " "3") (ClickSend 1704153600000 "1/2/24") = typed "   " "3".
Proof. reflexivity. Qed.

Example submit_unparseable_quantity :
  components (step (typed "R2" "abc") (ClickSend 1704153600000 "1/2/24"))
  = VArr [Rec.to_value (Rec.mk (Some 1704153600000) "R2" 0 "1/2/24")].
Proof. vm_compute. reflexivity. Qed.

Example submit_negative_quantity :
  accepts (typed "R2" "-5") = true /\
  components (step (typed "R2" "-5") (ClickSend 1704153600000 "1/2/24"))
  = VArr [Rec.to_value (Rec.mk (Some 1704153600000) "R2" (-5) "1/2/24")].
Proof. vm_compute. split; reflexivity. Qed.

Example submit_twice_on_one_clock_reading :
  let s := run (typed "R2" "3")
             [ClickSend 1704153600000 "1/2/24"; SendSettled false;
              ChangeName "R3"; ChangeQuantity "4";
              ClickSend 1704153600000 "1/2/24"] in
  components s
  = VArr [Rec.to_value record_R2;
          Rec.to_value (Rec.mk (Some 1704153600000) "R3" 4 "1/2/24")].
Proof. vm_compute. reflexivity. Qed.

Example parseInt_samples :
  parseInt "3" = Finite 3 /\ parseInt " 42px" = Finite 42 /\
  parseInt "1.5" = Finite 1 /\ parseInt "0x1F" = Finite 31 /\
  parseInt "-5" = Finite (-5) /\ parseInt "+7" = Finite 7 /\
  parseInt "abc" = NaN /\ parseInt "-" = NaN /\ parseInt "" = NaN.
Proof. vm_compute. repeat split; reflexivity. Qed.

(** Beyond the safe integers [parseInt] rounds to the nearest double, ties to
    the even one, and a numeral of 309 nines is an infinity. *)
Example parseInt_rounds :
  parseInt "9007199254740993" = Finite 9007199254740992 /\
  parseInt "9007199254740995" = Finite 9007199254740996 /\
  parseInt "-9007199254740993" = Finite (-9007199254740992) /\
  parseInt (string_of_Z (10 ^ 309 - 1)) = Infinity false /\
  parseInt (string_of_Z (1 - 10 ^ 309)) = Infinity true.
Proof. vm_compute. repeat split; reflexivity. Qed.

Example submit_large_quantity :
  get (newComponent 1704153600000 "1/2/24" (typed "R2" "9007199254740993")) "quantity"
  = Some (VBig 9007199254740992) /\
  get (newComponent 1704153600000 "1/2/24" (typed "R2" (string_of_Z (10 ^ 309 - 1))))
    "quantity"
  = Some (VInf false) /\
  JSON_stringify (VArr [VBig (2 ^ 60); VInf false]) = "[1152921504606847000,null]" /\
  ToString (VBig (2 ^ 70)) = Some "1.1805916207174113e+21".
Proof. vm_compute. repeat split; reflexivity. Qed.

(** Two clicks with no render in between run the same [handleSend]: both pass
    its guard and both send a request, and the list the second one sets does
    not hold the record of the first. *)
Example two_clicks_in_one_task :
  let r := filled [record_R1] "R2" "3" in
  let s := task r [ClickSend 1704153600000 "1/2/24";
                   ClickSend 1704153600001 "1/2/24"] r in
  components s
  = VArr [Rec.to_value record_R1;
          Rec.to_value (Rec.mk (Some 1704153600001) "R2" 3 "1/2/24")] /\
  length (posted s) = 2%nat.
Proof. vm_compute. split; reflexivity. Qed.

Example export_one_record :
  effects (step (showing [record_R1]) (ClickExport "2024-01-02T10:20:30.000Z"))
  = [Download "components-2024-01-02.csv" "text/csv"
       ("Component Name/Part No,Quantity,Date Added" +:+ line_feed
        +:+ double_quote +:+ "R1" +:+ double_quote +:+ ",5,"
        +:+ double_quote +:+ "1/1/24" +:+ double_quote)].
Proof. vm_compute. reflexivity. Qed.

Example fetch_after_optimistic_add :
  let s := session read_json ∅
             [ChangeName "R2"; ChangeQuantity "3";
              ClickSend 1704153600000 "1/2/24";
              SyncSettled (Payload (VArr [Rec.to_value remote_R9]))] in
  components s = VArr [Rec.to_value remote_R9] /\
  localStorage s !! "components" = Some (JSON_stringify (VArr [Rec.to_value remote_R9])).
Proof. vm_compute. split; reflexivity. Qed.

(** A payload that is falsy but not [null] ([0], [false], the empty string)
    also leaves the empty list, and a list that is not an array makes the next
    submission throw after it has cleared the form and raised the flag. *)
Example falsy_payload_gives_empty_list :
  components (step (typed "" "") (SyncSettled (Payload (VNum 0)))) = VArr [] /\
  components (step (typed "" "") (SyncSettled (Payload (VBool false)))) = VArr [] /\
  components (step (typed "" "") (SyncSettled (Payload (VStr "")))) = VArr [].
Proof. repeat split; reflexivity. Qed.

Example submit_over_object_payload_throws :
  let s := run (typed "R2" "3") [SyncSettled (Payload (VObj [("error", VStr "quota")]))] in
  dispatch (ClickSend 1704153600000 "1/2/24") s =
  (mkState "" "" (VObj [("error", VStr "quota")]) false true false false
     (localStorage s) [], None).
Proof. vm_compute. reflexivity. Qed.

(** ** Instances of the theorems *)

Lemma handleSend_appends_record_witness :
  let s := filled [record_R1] " R2 " "3" in
  let record := VObj [("id", VNum 1704153600000);
                      ("name", VStr (trim (componentName s)));
                      ("quantity", or_zero (parseInt (quantity s)));
                      ("dateAdded", VStr "1/2/24")] in
  let s' := step s (ClickSend 1704153600000 "1/2/24") in
  snd (dispatch (ClickSend 1704153600000 "1/2/24") s) = Some tt /\
  components s' = VArr ([Rec.to_value record_R1] ++ [record]) /\
  localStorage s' !! "components"
    = Some (JSON_stringify (VArr ([Rec.to_value record_R1] ++ [record]))) /\
  (forall key, key <> "components" -> localStorage s' !! key = localStorage s !! key) /\
  componentName s' = "" /\
  quantity s' = "".
Proof.
  refine (handleSend_appends_record (filled [record_R1] " R2 " "3")
            1704153600000 "1/2/24" [Rec.to_value record_R1] _ _ eq_refl eq_refl).
  - vm_compute. discriminate.
  - vm_compute. discriminate.
Defined.

Lemma handleSend_rejects_witness :
  dispatch (ClickSend 1704153600000 "1/2/24") (typed "   " "3")
  = (typed "   " "3", Some tt).
Proof.
  apply (handleSend_rejects (typed "   " "3") 1704153600000 "1/2/24").
  left. vm_compute. reflexivity.
Defined.

Lemma post_body_has_no_id_witness :
  posted (step (filled [record_R1] " R2 " "3") (ClickSend 1704153600000 "1/2/24"))
  = [JSON_stringify (VObj [("name", VStr "R2");
                           ("quantity", VNum 3);
                           ("dateAdded", VStr "1/2/24")])] /\
  components (step (typed "R2" "3")
                (SyncSettled (Payload (VArr (map Rec.to_value [remote_R9])))))
  = VArr (map Rec.to_value [remote_R9]).
Proof.
  split.
  - destruct (proj1 post_body_has_no_id (filled [record_R1] " R2 " "3")
                1704153600000 "1/2/24" eq_refl)
      as (_ & [[_ Heffects] | [Hthrown _]]).
    + unfold posted. rewrite Heffects. vm_compute. reflexivity.
    + vm_compute in Hthrown. discriminate Hthrown.
  - apply (proj2 post_body_has_no_id (typed "R2" "3") [remote_R9]).
    repeat constructor.
Defined.

Lemma sync_failure_keeps_state_witness :
  let s := showing [record_R1] in
  let s' := step s (SyncSettled ParseError) in
  snd (dispatch (SyncSettled ParseError) s) = Some tt /\
  components s' = components s /\
  localStorage s' = localStorage s /\
  componentName s' = componentName s /\
  quantity s' = quantity s /\
  effects s' = (effects s ++ [ConsoleLog "Error syncing with Google Sheets:"])%list.
Proof.
  apply (sync_failure_keeps_state (showing [record_R1]) ParseError).
  right. reflexivity.
Defined.

Lemma mutation_leaves_cache_in_sync_witness :
  cache_in_sync (step (typed "R2" "3") (ClickSend 1704153600000 "1/2/24")).
Proof.
  apply (mutation_leaves_cache_in_sync (typed "R2" "3")
           (ClickSend 1704153600000 "1/2/24")).
  - vm_compute. reflexivity.
  - vm_compute. reflexivity.
Defined.

Lemma stored_quantity_is_parsed_number_witness :
  exists (record q : value),
    creates (typed "R2" "0x1F") (ClickSend 1704153600000 "1/2/24") = Some record /\
    get record "quantity" = Some q /\
    q = VNum 31 /\
    not_negative q.
Proof.
  destruct (stored_quantity_is_parsed_number (typed "R2" "0x1F") 1704153600000 "1/2/24"
              eq_refl) as (record & q & Hrecord & Hqty & _ & _ & Hvalue & Hsign).
  exists record, q. split; [exact Hrecord | split; [exact Hqty | split]].
  - apply (Hvalue 31); [reflexivity | reflexivity].
  - apply Hsign. reflexivity.
Defined.

Lemma created_ids_are_clock_readings_witness :
  let evs := [ClickSend 1704153600000 "1/2/24"; SendSettled false;
              ChangeName "R3"; ChangeQuantity "4";
              ClickSend 1704153600001 "1/2/24"; ClickSend 1704153600002 "1/2/24"] in
  map record_id (created (typed "R2" "3") evs)
  = map Some (clock_readings (typed "R2" "3") evs) /\
  NoDup (map record_id (created (typed "R2" "3") evs)).
Proof.
  destruct (created_ids_are_clock_readings (typed "R2" "3")
              [ClickSend 1704153600000 "1/2/24"; SendSettled false;
               ChangeName "R3"; ChangeQuantity "4";
               ClickSend 1704153600001 "1/2/24"; ClickSend 1704153600002 "1/2/24"])
    as (_ & Hids & Hdistinct).
  split; [exact Hids |]. apply Hdistinct.
  vm_compute.
  apply NoDup_cons. split; [| apply NoDup_singleton].
  intros Hin. apply list_elem_of_singleton in Hin. discriminate Hin.
Defined.


Lemma startup_cache_load_witness :
  read_json "" = None /\
  components (fst (mount read_json (initial stored_R1))) = VArr [Rec.to_value record_R1] /\
  components (fst (mount read_json (initial stored_garbage))) = VArr [] /\
  components (fst (mount read_json (initial ∅))) = VArr [].
Proof.
  split; [reflexivity |]. split; [| split].
  - destruct (startup_cache_load read_json eq_refl stored_R1)
      as (_ & _ & Hparsed & _).
    apply (Hparsed (JSON_stringify (VArr [Rec.to_value record_R1])));
      vm_compute; reflexivity.
  - destruct (startup_cache_load read_json eq_refl stored_garbage)
      as (_ & Hmalformed & _).
    apply (Hmalformed "[{id:"); vm_compute; reflexivity.
  - destruct (startup_cache_load read_json eq_refl ∅) as (Habsent & _).
    apply Habsent. reflexivity.
Defined.

(** ** Further properties of the component *)

(** *** What one event changes *)

Lemma exportToCSV_cases (s : state) (iso : string) :
  dispatch (ClickExport iso) s = (s, None) \/
  dispatch (ClickExport iso) s = alert "No components to export" s \/
  exists content,
    dispatch (ClickExport iso) s =
    perform (Download ("components-" +:+ split_head "T" iso +:+ ".csv")
                      "text/csv" content) s.
Proof.
  unfold dispatch, handler, exportToCSV, bind.
  destruct (get (components s) "length") as [len |]; cbn [lift ret throw];
    [| now left].
  destruct (is_zero len); [right; now left |].
  destruct (array_map csv_row (components s)) as [rows |]; cbn [lift ret throw];
    [| now left].
  right; right. eexists. reflexivity.
Qed.

Lemma handleSend_cases (s : state) (now : Z) (today : string) :
  (accepts s = false /\ dispatch (ClickSend now today) s = (s, Some tt)) \/
  (accepts s = true /\ spread (components s) = None /\
   dispatch (ClickSend now today) s =
   (mkState "" "" (components s) (showList s) true (isLoading s) (isSyncing s)
      (localStorage s) (effects s), None)) \/
  (exists l, accepts s = true /\ spread (components s) = Some l /\
     dispatch (ClickSend now today) s =
     (mkState "" "" (VArr (l ++ [newComponent now today s])) (showList s) true
        (isLoading s) (isSyncing s)
        (<["components" := JSON_stringify (VArr (l ++ [newComponent now today s]))]>
           (localStorage s))
        (effects s ++ [post_request now today s]),
      Some tt)).
Proof.
  destruct (accepts s) eqn:Hacc.
  - destruct (spread (components s)) as [l |] eqn:Hspread.
    + right; right. exists l. repeat split.
      now apply handleSend_accepted.
    + right; left. repeat split. now apply handleSend_throws.
  - left. split; [reflexivity |]. now apply handleSend_rejected.
Qed.

Lemma quiet_event_frame (s : state) (e : event) :
  mutates s e = false ->
  components (step s e) = components s /\
  localStorage (step s e) = localStorage s.
Proof.
  intros Hmut.
  destruct e as [v | v | | now today | rejected | [ | | data] | iso];
    try discriminate Hmut; try (split; reflexivity).
  - cbn [mutates] in Hmut. unfold step.
    now rewrite (handleSend_rejected s now today Hmut).
  - destruct rejected; split; reflexivity.
  - unfold step.
    destruct (exportToCSV_cases s iso) as [-> | [-> | [content ->]]];
      split; reflexivity.
Qed.

(** X5. An event that is neither a background fetch delivering a payload nor
    an accepted submission leaves the list and the storage as they are, also
    when its handler throws. *)
Theorem other_events_keep_list_and_storage (s : state) (e : event) :
  mutates s e = false ->
  components (step s e) = components s /\
  localStorage (step s e) = localStorage s.
Proof. apply quiet_event_frame. Qed.

Lemma step_other_keys (s : state) (e : event) (key : string) :
  key <> "components" ->
  localStorage (step s e) !! key = localStorage s !! key.
Proof.
  intros Hkey.
  destruct (mutates s e) eqn:Hmut.
  - destruct e as [v | v | | now today | rejected | [ | | data] | iso];
      try discriminate Hmut.
    + unfold step.
      destruct (handleSend_cases s now today)
        as [[_ ->] | [(_ & _ & ->) | (l & _ & _ & ->)]];
        cbn [fst localStorage]; try reflexivity.
      now apply lookup_insert_ne.
    + cbn. now apply lookup_insert_ne.
  - now destruct (quiet_event_frame s e Hmut) as [_ ->].
Qed.

(** X6. No run writes, or removes, a storage key other than [components]. *)
Theorem run_keeps_other_keys (s : state) (evs : list event) (key : string) :
  key <> "components" ->
  localStorage (run s evs) !! key = localStorage s !! key.
Proof.
  intros Hkey. revert s.
  induction evs as [| e evs IH]; intros s; [reflexivity |].
  cbn [run fold_left]. fold (run (step s e) evs).
  rewrite IH. now apply step_other_keys.
Qed.

(** *** Runs without a payload *)

Lemma created_cons (s : state) (e : event) (evs : list event) :
  created s (e :: evs) = (option_list (creates s e) ++ created (step s e) evs)%list.
Proof. reflexivity. Qed.


(** *** The send flag *)

Lemma posted_perform (s : state) (eff : effect) :
  posted (fst (perform eff s)) =
  (posted s ++ match eff with
               | Fetch _ (Some init) => [body init]
               | _ => []
               end)%list.
Proof.
  unfold posted. cbn [perform fst effects]. rewrite omap_app.
  destruct eff as [msg | msg | url [init |] | filename mime content]; reflexivity.
Qed.

Lemma step_keeps_sending (s : state) (e : event) :
  is_send_settled e = false ->
  isSending s = true ->
  isSending (step s e) = true /\ creates s e = None /\ posted (step s e) = posted s.
Proof.
  intros He Hsending.
  assert (Hacc : accepts s = false) by (apply accepts_false; auto).
  destruct e as [v | v | | now today | rejected | [ | | data] | iso];
    try discriminate He.
  - now repeat split.
  - now repeat split.
  - now repeat split.
  - cbn [creates]. rewrite Hacc. unfold step.
    now rewrite (handleSend_rejected s now today Hacc).
  - repeat split; [assumption |].
    unfold posted. cbn. rewrite omap_app. cbn. now rewrite app_nil_r.
  - repeat split; [assumption |].
    unfold posted. cbn. rewrite omap_app. cbn. now rewrite app_nil_r.
  - now repeat split.
  - unfold step.
    destruct (exportToCSV_cases s iso) as [-> | [-> | [content ->]]].
    + now repeat split.
    + repeat split; [assumption |].
      unfold alert. rewrite posted_perform. now rewrite app_nil_r.
    + repeat split; [assumption |].
      rewrite posted_perform. now rewrite app_nil_r.
Qed.

Lemma sending_blocks_run (s : state) (evs : list event) :
  isSending s = true ->
  forallb (fun e => negb (is_send_settled e)) evs = true ->
  created s evs = [] /\
  posted (run s evs) = posted s /\
  isSending (run s evs) = true.
Proof.
  revert s.
  induction evs as [| e evs IH]; intros s Hsending Hevs; [now repeat split |].
  cbn [forallb] in Hevs. apply andb_true_iff in Hevs as [He Hevs].
  apply negb_true_iff in He.
  destruct (step_keeps_sending s e He Hsending) as (Hstill & Hnone & Hposted).
  destruct (IH (step s e) Hstill Hevs) as (Hcreated & Hposts & Hflag).
  cbn [run fold_left]. fold (run (step s e) evs).
  rewrite created_cons, Hnone, Hcreated, Hposts, Hposted.
  now repeat split.
Qed.

(** X16. While a send is in flight, that is from a state whose send flag is
    raised and along a run in which no POST settles, no submission is
    accepted: the run creates no record and sends no request, whatever is
    typed and however often the button is clicked. *)
Theorem no_submission_while_sending (s : state) (evs : list event) :
  isSending s = true ->
  forallb (fun e => negb (is_send_settled e)) evs = true ->
  created s evs = [] /\
  posted (run s evs) = posted s /\
  isSending (run s evs) = true.
Proof. apply sending_blocks_run. Qed.

Lemma quiet_step (s : state) (e : event) :
  match e with ClickSend _ _ | SendSettled _ => False | _ => True end ->
  posted (step s e) = posted s /\ isSending (step s e) = isSending s.
Proof.
  destruct e as [v | v | | now today | rejected | [ | | data] | iso];
    intros He; try contradiction; try (now split).
  - split; [| reflexivity].
    unfold posted. cbn. rewrite omap_app. cbn. now rewrite app_nil_r.
  - split; [| reflexivity].
    unfold posted. cbn. rewrite omap_app. cbn. now rewrite app_nil_r.
  - unfold step.
    destruct (exportToCSV_cases s iso) as [-> | [-> | [content ->]]];
      split; try reflexivity.
    + unfold alert. rewrite posted_perform. now rewrite app_nil_r.
    + rewrite posted_perform. now rewrite app_nil_r.
Qed.

Lemma settled_step (s : state) (rejected : bool) :
  posted (step s (SendSettled rejected)) = posted s /\
  isSending (step s (SendSettled rejected)) = false.
Proof.
  destruct rejected; split; try reflexivity.
  unfold posted. cbn. rewrite omap_app. cbn. now rewrite app_nil_r.
Qed.

Lemma posted_accepted (s : state) (now : Z) (today : string) (l : list value) :
  accepts s = true ->
  spread (components s) = Some l ->
  posted (step s (ClickSend now today)) =
  (posted s ++ [JSON_stringify
                  (VObj [("name", VStr (trim (componentName s)));
                         ("quantity", or_zero (parseInt (quantity s)));
                         ("dateAdded", VStr today)])])%list.
Proof.
  intros Hacc Hspread. unfold step.
  rewrite (handleSend_accepted s now today l Hacc Hspread).
  unfold posted. cbn [fst effects]. now rewrite omap_app.
Qed.

(** One step spends the single slot a free send flag stands for, and a
    settling POST gives it back. *)
Lemma step_budget (s : state) (e : event) :
  (length (posted (step s e)) + (if isSending (step s e) then 0 else 1) <=
   length (posted s) + (if isSending s then 0 else 1)
   + (if is_send_settled e then 1 else 0))%nat.
Proof.
  destruct e as [v | v | | now today | rejected | res | iso].
  1-3, 6-7:
    match goal with
    | |- context [step ?s0 ?e] => destruct (quiet_step s0 e I) as [-> ->]
    end; cbn; lia.
  - cbn [is_send_settled].
    destruct (handleSend_cases s now today)
      as [[_ Heq] | [(Hacc & _ & Heq) | (l & Hacc & Hspread & Heq)]].
    + unfold step. rewrite Heq. cbn [fst]. lia.
    + apply accepts_true in Hacc as (_ & _ & Hfree).
      unfold step. rewrite Heq, Hfree. cbn [fst isSending].
      unfold posted. cbn [effects]. lia.
    + rewrite (posted_accepted s now today l Hacc Hspread), length_app.
      assert (Hflag : isSending (step s (ClickSend now today)) = true)
        by (unfold step; now rewrite Heq).
      apply accepts_true in Hacc as (_ & _ & Hfree). rewrite Hfree, Hflag.
      cbn. lia.
  - destruct (settled_step s rejected) as [-> ->].
    cbn. destruct (isSending s); lia.
Qed.

(** X4. However the events of a run are arranged, the POST requests it sends
    exceed the POSTs that settle in it by at most one: a second request is
    never sent while one is in flight. *)
Theorem posts_bounded_by_settled (s : state) (evs : list event) :
  (length (posted (run s evs)) <=
   length (posted s) + length (filter (fun e => is_send_settled e = true) evs) + 1)%nat.
Proof.
  assert (Hinv : forall evs s,
             (length (posted (run s evs)) + (if isSending (run s evs) then 0 else 1) <=
              length (posted s) + (if isSending s then 0 else 1)
              + length (filter (fun e => is_send_settled e = true) evs))%nat).
  { clear s evs. intros evs.
    induction evs as [| e evs IH]; intros s; [cbn; lia |].
    cbn [run fold_left]. fold (run (step s e) evs).
    specialize (IH (step s e)). pose proof (step_budget s e) as Hstep.
    destruct (is_send_settled e) eqn:He.
    - rewrite filter_cons_True by exact He. cbn [length]. lia.
    - rewrite filter_cons_False by (rewrite He; discriminate). lia. }
  specialize (Hinv evs s).
  destruct (isSending (run s evs)), (isSending s); lia.
Qed.

(** *** Lists of rows *)

Lemma ToString_primitive (v : value) :
  primitive v = true -> is_Some (ToString v).
Proof.
  destruct v as [| | [|] | n | s | elems | props | x | negative];
    intros H; try discriminate H; eexists; reflexivity.
Qed.

Lemma primitive_or_zero (x : number) : primitive (or_zero x) = true.
Proof.
  pose proof (or_zero_is_number x) as H.
  destruct (or_zero x); try discriminate H; reflexivity.
Qed.

Lemma is_row_fields (v : value) :
  is_row v = true ->
  exists key name qty dateAdded,
    get v "id" = Some key /\ get v "name" = Some name /\
    get v "quantity" = Some qty /\ get v "dateAdded" = Some dateAdded /\
    primitive key = true /\ primitive name = true /\
    primitive qty = true /\ primitive dateAdded = true.
Proof.
  unfold is_row, primitive_field. intros H.
  repeat (apply andb_true_iff in H as [H ?]).
  destruct (get v "id") as [key |]; [| discriminate].
  destruct (get v "name") as [name |]; [| discriminate].
  destruct (get v "quantity") as [qty |]; [| discriminate].
  destruct (get v "dateAdded") as [dateAdded |]; [| discriminate].
  exists key, name, qty, dateAdded. now repeat split.
Qed.

Lemma csv_row_defined (v : value) : is_row v = true -> is_Some (csv_row v).
Proof.
  intros H.
  destruct (is_row_fields v H)
    as (key & name & qty & date & _ & Hn & Hq & Hd & _ & Pn & Pq & Pd).
  destruct (ToString_primitive name Pn) as [tn Htn].
  destruct (ToString_primitive qty Pq) as [tq Htq].
  destruct (ToString_primitive date Pd) as [td Htd].
  unfold csv_row. rewrite Hn. cbn [mbind option_bind]. rewrite Htn.
  cbn [mbind option_bind]. rewrite Hq. cbn [mbind option_bind]. rewrite Htq.
  cbn [mbind option_bind]. rewrite Hd. cbn [mbind option_bind]. rewrite Htd.
  eexists; reflexivity.
Qed.

Lemma valid_child_primitive (v : value) : primitive v = true -> valid_child v = true.
Proof. destruct v; intros H; try discriminate H; reflexivity. Qed.

Lemma render_row_defined (v : value) : is_row v = true -> is_Some (render_row v).
Proof.
  intros H.
  destruct (is_row_fields v H)
    as (key & name & qty & date & Hk & Hn & Hq & Hd & Pk & Pn & Pq & Pd).
  assert (Hkey : is_Some (match key with VUndefined => Some "" | _ => ToString key end)).
  { destruct (ToString_primitive key Pk) as [tk Htk].
    destruct key; try (eexists; reflexivity); rewrite Htk; eexists; reflexivity. }
  destruct Hkey as [tk Htk].
  unfold render_row. rewrite Hk. cbn [mbind option_bind]. rewrite Htk.
  cbn [mbind option_bind]. rewrite Hn. cbn [mbind option_bind]. rewrite Hq.
  cbn [mbind option_bind]. rewrite Hd. cbn [mbind option_bind].
  rewrite !valid_child_primitive by assumption.
  eexists; reflexivity.
Qed.

Lemma mapM_defined {A} (f : value -> option A) (ok : value -> bool) (l : list value) :
  (forall v, ok v = true -> is_Some (f v)) ->
  forallb ok l = true ->
  is_Some (mapM f l).
Proof.
  intros Hf. induction l as [| v l IH]; intros Hl; [eexists; reflexivity |].
  cbn [forallb] in Hl. apply andb_true_iff in Hl as [Hv Hl].
  destruct (Hf v Hv) as [y Hy], (IH Hl) as [ys Hys].
  exists (y :: ys). cbn [mapM]. rewrite Hy, Hys. reflexivity.
Qed.

Lemma exportToCSV_returns (s : state) (iso : string) :
  is_list (components s) = true -> returns s (ClickExport iso) = true.
Proof.
  unfold is_list, returns. destruct (components s) as [| | | | | l | | |] eqn:Hlist;
    try discriminate. intros Hl.
  unfold dispatch, handler, exportToCSV, bind. rewrite Hlist.
  cbn [get lift ret String.eqb Ascii.eqb Bool.eqb].
  destruct (is_zero _); [reflexivity |].
  cbn [array_map].
  destruct (mapM_defined csv_row is_row l csv_row_defined Hl) as [rows ->].
  reflexivity.
Qed.

Lemma render_defined (s : state) :
  is_list (components s) = true -> is_Some (render s).
Proof.
  unfold is_list, render. destruct (components s) as [| | | | | l | | |];
    try discriminate. intros Hl.
  cbn [get String.eqb Ascii.eqb Bool.eqb].
  destruct (showList s); cbn [mbind option_bind ToString];
    [| eexists; reflexivity].
  destruct (is_zero _); cbn [mbind option_bind]; [eexists; reflexivity |].
  cbn [array_map].
  destruct (mapM_defined render_row is_row l render_row_defined Hl) as [rows ->].
  eexists; reflexivity.
Qed.

Lemma is_row_newComponent (now : Z) (today : string) (s : state) :
  is_row (newComponent now today s) = true.
Proof.
  unfold is_row, primitive_field, newComponent.
  cbn [get assoc String.eqb Ascii.eqb Bool.eqb default from_option id primitive andb].
  now rewrite primitive_or_zero.
Qed.

Lemma step_keeps_list (s : state) (e : event) :
  is_list (components s) = true ->
  payload_is is_list e = true ->
  is_list (components (step s e)) = true /\ returns s e = true.
Proof.
  intros Hlist He.
  destruct (mutates s e) eqn:Hmut.
  - destruct e as [v | v | | now today | rejected | [ | | data] | iso];
      try discriminate Hmut.
    + cbn [mutates] in Hmut.
      destruct (components s) as [| | | | | l | | |] eqn:Hc; try discriminate Hlist.
      assert (Hspread : spread (components s) = Some l) by now rewrite Hc.
      unfold returns, step.
      rewrite (handleSend_accepted s now today l Hmut Hspread).
      cbn [fst snd components is_list]. split; [| reflexivity].
      rewrite forallb_app. cbn [is_list] in Hlist. rewrite Hlist.
      cbn [forallb]. now rewrite is_row_newComponent.
    + split; [| reflexivity].
      cbn [payload_is] in He. cbn. unfold or_else.
      destruct (truthy data); [exact He | reflexivity].
  - destruct (quiet_event_frame s e Hmut) as [-> _].
    split; [exact Hlist |].
    destruct e as [v | v | | now today | rejected | [ | | data] | iso];
      try reflexivity; try discriminate Hmut.
    + cbn [mutates] in Hmut. unfold returns.
      now rewrite (handleSend_rejected s now today Hmut).
    + now destruct rejected.
    + now apply exportToCSV_returns.
Qed.

(** X2. From a list that is an array of rows (elements whose properties can
    be read and whose [id], [name], [quantity] and [dateAdded] are neither
    arrays nor objects), and as long as every payload the background fetch
    delivers is falsy or such an array, no handler of a run throws, the list
    stays such an array, and the component can be rendered at the end of the
    run.  Each event is handled in the render of the state the event before
    it left. *)
Theorem list_of_rows_never_throws (s : state) (evs : list event) :
  is_list (components s) = true ->
  forallb (payload_is is_list) evs = true ->
  all_return s evs = true /\
  is_list (components (run s evs)) = true /\
  is_Some (render (run s evs)).
Proof.
  revert s.
  induction evs as [| e evs IH]; intros s Hlist Hevs.
  - repeat split; [exact Hlist | now apply render_defined].
  - cbn [forallb] in Hevs. apply andb_true_iff in Hevs as [He Hevs].
    destruct (step_keeps_list s e Hlist He) as [Hnext Hret].
    destruct (IH (step s e) Hnext Hevs) as (Hall & Hend & Hview).
    cbn [all_return run fold_left]. fold (run (step s e) evs).
    rewrite Hret, Hall. now repeat split.
Qed.

(** *** Requests *)




(** *** Effects *)

(** A step performs at most one effect, and one its event can emit. *)
Lemma step_effects (s : state) (e : event) :
  effects (step s e) = effects s \/
  exists eff, effects (step s e) = (effects s ++ [eff])%list /\ emits e eff.
Proof.
  destruct e as [v | v | | now today | rejected | [ | | data] | iso];
    try (now left).
  - unfold step.
    destruct (handleSend_cases s now today)
      as [[_ ->] | [(_ & _ & ->) | (l & _ & _ & ->)]]; try (now left).
    right. eexists. split; [reflexivity |].
    cbn. repeat split; eauto.
  - destruct rejected; [| now left].
    right. eexists. split; [reflexivity |]. cbn. now left.
  - right. eexists. split; [reflexivity |]. cbn. right. split; [now left | reflexivity].
  - right. eexists. split; [reflexivity |]. cbn. right. split; [now right | reflexivity].
  - unfold step.
    destruct (exportToCSV_cases s iso) as [-> | [-> | [content ->]]];
      [now left | |];
      right; eexists; (split; [reflexivity |]); cbn; repeat split; eauto.
Qed.

Lemma run_effects (evs : list event) (s : state) (eff : effect) :
  eff ∈ effects (run s evs) ->
  eff ∈ effects s \/ exists e, e ∈ evs /\ emits e eff.
Proof.
  revert s. induction evs as [| e evs IH]; intros s Hin; [now left |].
  cbn [run fold_left] in Hin. fold (run (step s e) evs) in Hin.
  destruct (IH (step s e) Hin) as [Hstep | (e' & He' & Hemit)].
  - destruct (step_effects s e) as [Heq | (eff' & Heq & Hemit)];
      rewrite Heq in Hstep; [now left |].
    apply elem_of_app in Hstep as [Hold | Hnew]; [now left |].
    apply list_elem_of_singleton in Hnew as ->.
    right. exists e. split; [left | exact Hemit].
  - right. exists e'. split; [now right | exact Hemit].
Qed.

(** X7. The only alert a run can raise is the one of an export over an empty
    list: every alert among the effects at the end of a run either was there
    at the start or reads [No components to export] and comes from an export
    click of the run. *)
Theorem alerts_come_from_export (s : state) (evs : list event) (msg : string) :
  Alert msg ∈ effects (run s evs) ->
  Alert msg ∈ effects s \/
  (msg = "No components to export" /\ exists iso, ClickExport iso ∈ evs).
Proof.
  intros Hin.
  destruct (run_effects evs s (Alert msg) Hin) as [Hold | (e & He & Hemit)];
    [now left |].
  right. destruct Hemit as [[iso ->] ->]. split; [reflexivity | eauto].
Qed.

Lemma gets_step (s : state) (e : event) : gets (step s e) = gets s.
Proof.
  destruct (step_effects s e) as [Heq | (eff & Heq & Hemit)];
    unfold gets; rewrite Heq; [reflexivity |].
  rewrite omap_app.
  destruct eff as [msg | msg | url init | filename mime content];
    try (cbn; now rewrite app_nil_r).
  destruct Hemit as (_ & _ & text & ->). cbn. now rewrite app_nil_r.
Qed.

Lemma gets_run (evs : list event) (s : state) : gets (run s evs) = gets s.
Proof.
  revert s. induction evs as [| e evs IH]; intros s; [reflexivity |].
  cbn [run fold_left]. fold (run (step s e) evs). now rewrite IH, gets_step.
Qed.

(** X8. A session reads the remote store exactly once, at mount: whatever the
    stored text, the parser and the events, the only GET request among its
    effects is the one to [SHEET_URL]; and every request it performs, GET or
    POST, goes to [SHEET_URL]. *)
Theorem session_fetches_once
    (JSON_parse : string -> option value)
    (stored : gmap string string) (evs : list event) :
  gets (session JSON_parse stored evs) = [SHEET_URL] /\
  forall url init,
    Fetch url init ∈ effects (session JSON_parse stored evs) -> url = SHEET_URL.
Proof.
  unfold session. split.
  - rewrite gets_run. unfold gets.
    destruct (mount_effects JSON_parse stored) as [-> | ->]; reflexivity.
  - intros url init Hin.
    apply run_effects in Hin as [Hmount | (e & _ & Hemit)].
    + destruct (mount_effects JSON_parse stored) as [Heq | Heq];
        rewrite Heq in Hmount;
        repeat (apply elem_of_cons in Hmount as [Hmount | Hmount];
                [now inversion Hmount |]);
        now apply elem_of_nil in Hmount.
    + now destruct Hemit as (_ & -> & _).
Qed.

(** *** The syncing flag *)

Lemma isSyncing_step (s : state) (e : event) :
  isSyncing (step s e) = if is_sync_settled e then false else isSyncing s.
Proof.
  destruct e as [v | v | | now today | rejected | [ | | data] | iso];
    try reflexivity.
  - unfold step.
    now destruct (handleSend_cases s now today)
      as [[_ ->] | [(_ & _ & ->) | (l & _ & _ & ->)]].
  - now destruct rejected.
  - unfold step.
    now destruct (exportToCSV_cases s iso) as [-> | [-> | [content ->]]].
Qed.

Lemma isSyncing_run (evs : list event) (s : state) :
  isSyncing (run s evs) = isSyncing s && negb (existsb is_sync_settled evs).
Proof.
  revert s. induction evs as [| e evs IH]; intros s.
  - cbn. now rewrite andb_true_r.
  - cbn [run fold_left existsb]. fold (run (step s e) evs).
    rewrite IH, isSyncing_step.
    destruct (is_sync_settled e); [now rewrite andb_false_r | reflexivity].
Qed.

(** X14. The syncing line is shown from the mount until the background fetch
    settles, and never again: at the end of a session the syncing flag is
    raised exactly when no fetch outcome, success or failure, was among the
    events. *)
Theorem syncing_until_fetch_settles
    (JSON_parse : string -> option value)
    (stored : gmap string string) (evs : list event) :
  isSyncing (session JSON_parse stored evs) = negb (existsb is_sync_settled evs).
Proof.
  unfold session. rewrite isSyncing_run.
  replace (isSyncing (fst (mount JSON_parse (initial stored)))) with true;
    [reflexivity |].
  unfold mount, bind, loadCache. cbn [localStorage initial].
  destruct (stored !! "components") as [[| c rest] |]; try reflexivity.
  cbn [truthy_string]. destruct (JSON_parse (String c rest)); reflexivity.
Qed.

(** *** Reload *)

(** X11. What the component saved is what the next start shows: if the cache
    holds the JSON text of the list and the parser reads that text back to
    the list (and rejects the empty text), mounting a fresh component over the
    same storage loads the same list. *)
Theorem reload_restores_list
    (JSON_parse : string -> option value) (s : state) :
  JSON_parse "" = None ->
  cache_in_sync s ->
  JSON_parse (JSON_stringify (components s)) = Some (components s) ->
  components (fst (mount JSON_parse (initial (localStorage s)))) = components s.
Proof.
  intros Hempty Hsync Hread. unfold cache_in_sync in Hsync.
  assert (Hload : components (fst (mount JSON_parse (initial (localStorage s)))) =
                  components (fst (loadCache JSON_parse (initial (localStorage s))))).
  { unfold mount, bind.
    destruct (loadCache JSON_parse (initial (localStorage s))) as [s1 [[] |]];
      reflexivity. }
  rewrite Hload, (loadCache_components JSON_parse Hempty), Hsync, Hread.
  reflexivity.
Qed.

(** *** Rendering *)

Lemma render_rows_records (cs : list Rec.t) :
  mapM render_row (map Rec.to_value cs) = Some (map record_row cs).
Proof.
  induction cs as [| c cs IH]; [reflexivity |].
  cbn [map mapM]. rewrite IH. destruct c as [[i |] n q d]; reflexivity.
Qed.

(** X12. Over a list of records the component renders without error. With the
    list hidden the toggle button reads [Show List (n)], [n] the number of
    records, and there is no panel; with the list shown it reads [Hide List]
    and the panel holds the empty-list message when there is no record, and
    otherwise one row per record, in list order, keyed by the record's [id]
    and showing its name, quantity and date.  The send button is disabled
    exactly while a send is in flight. *)
Theorem render_records (s : state) (cs : list Rec.t) :
  components s = VArr (map Rec.to_value cs) ->
  exists v,
    render s = Some v /\
    toggle_text v =
      (if showList s then "Hide List"
       else "Show List (" +:+ string_of_Z (Z.of_nat (length cs)) +:+ ")") /\
    list_panel v =
      (if showList s then
         Some (match cs with [] => NoComponents | _ => Rows (map record_row cs) end)
       else None) /\
    send_disabled v = isSending s /\
    send_text v = (if isSending s then "Sending..." else "Send") /\
    syncing_line v = isSyncing s /\
    name_input v = componentName s /\
    quantity_input v = quantity s.
Proof.
  intros Hlist. unfold render. rewrite Hlist.
  cbn [get String.eqb Ascii.eqb Bool.eqb]. rewrite length_map.
  destruct (showList s); cbn [mbind option_bind].
  - destruct cs as [| c cs].
    + eexists. split; [reflexivity |]. now repeat split.
    + replace (is_zero _) with false by reflexivity.
      cbn [array_map]. rewrite render_rows_records.
      eexists. split; [reflexivity |]. now repeat split.
  - eexists. split; [reflexivity |]. now repeat split.
Qed.

(** X13. The cache load does not check what it parses. When the stored text
    is JSON for [null], the mount effect returns normally and leaves [null]
    as the list, and the render that follows throws, whether the list is
    shown or hidden. *)
Theorem null_cache_breaks_render
    (JSON_parse : string -> option value)
    (stored : gmap string string) (blob : string) :
  JSON_parse "" = None ->
  stored !! "components" = Some blob ->
  JSON_parse blob = Some VNull ->
  let s := fst (mount JSON_parse (initial stored)) in
  snd (mount JSON_parse (initial stored)) = Some tt /\
  components s = VNull /\
  render s = None /\
  render (step s ToggleList) = None.
Proof.
  intros Hempty Hstored Hparse s. subst s.
  unfold mount, bind, loadCache. cbn [localStorage initial]. rewrite Hstored.
  destruct blob as [| c rest]; [congruence |].
  cbn [truthy_string]. rewrite Hparse. cbn. repeat split.
Qed.

(** *** Names *)

Lemma trimStart_head (s : string) :
  match trimStart s with
  | EmptyString => True
  | String c _ => is_white_space c = false
  end.
Proof.
  induction s as [| c rest IH]; cbn [trimStart]; [exact I |].
  destruct (is_white_space c) eqn:Hc; [exact IH | exact Hc].
Qed.

Lemma trimEnd_head (c : ascii) (rest : string) :
  is_white_space c = false ->
  exists rest', trimEnd (String c rest) = String c rest'.
Proof.
  intros Hc. cbn [trimEnd]. destruct (trimEnd rest); rewrite ?Hc; eauto.
Qed.

Lemma trimEnd_idempotent (s : string) : trimEnd (trimEnd s) = trimEnd s.
Proof.
  induction s as [| c rest IH]; [reflexivity |].
  cbn [trimEnd]. destruct (trimEnd rest) as [| c' rest'] eqn:Hrest.
  - destruct (is_white_space c) eqn:Hc; [reflexivity |].
    cbn [trimEnd]. now rewrite Hc.
  - cbn [trimEnd] in IH |- *.
    destruct (trimEnd rest') as [| c'' rest''] eqn:Hrest'.
    + destruct (is_white_space c') eqn:Hc'; [discriminate IH |].
      now rewrite <- IH.
    + now rewrite <- IH.
Qed.

Lemma trim_idempotent (s : string) : trim (trim s) = trim s.
Proof.
  unfold trim. pose proof (trimStart_head s) as Hhead.
  destruct (trimStart s) as [| c rest]; [reflexivity |].
  destruct (trimEnd_head c rest Hhead) as [rest' Heq].
  assert (Hstart : trimStart (trimEnd (String c rest)) = trimEnd (String c rest)).
  { rewrite Heq. cbn [trimStart]. now rewrite Hhead. }
  rewrite Hstart. apply trimEnd_idempotent.
Qed.

Lemma trim_head (s : string) :
  match trim s with
  | EmptyString => True
  | String c _ => is_white_space c = false
  end.
Proof.
  unfold trim. pose proof (trimStart_head s) as Hhead.
  destruct (trimStart s) as [| c rest]; [exact I |].
  destruct (trimEnd_head c rest Hhead) as [rest' ->]. exact Hhead.
Qed.

Lemma created_records (evs : list event) (s : state) (record : value) :
  record ∈ created s evs ->
  exists s' now today,
    accepts s' = true /\ record = newComponent now today s'.
Proof.
  revert s. induction evs as [| e evs IH]; intros s Hin.
  - now apply elem_of_nil in Hin.
  - rewrite created_cons in Hin. apply elem_of_app in Hin as [Hnew | Hrest].
    + destruct e as [v | v | | now today | rejected | res | iso];
        try (now apply elem_of_nil in Hnew).
      cbn [creates] in Hnew. destruct (accepts s) eqn:Hacc;
        [| now apply elem_of_nil in Hnew].
      apply list_elem_of_singleton in Hnew. eauto.
    + eapply IH, Hrest.
Qed.

(** X9. Every record a run creates has the four properties [id], [name],
    [quantity] and [dateAdded], in this order: a numeric [id], a name that is
    not empty and carries no white space at either end (trimming it again
    changes nothing, and its first character is not white space), a quantity
    that is a number, and a date text. *)
Theorem created_records_are_well_formed
    (s : state) (evs : list event) (record : value) :
  record ∈ created s evs ->
  exists (i : Z) (name : string) (q : value) (date : string),
    record = VObj [("id", VNum i); ("name", VStr name);
                   ("quantity", q); ("dateAdded", VStr date)] /\
    is_number q = true /\
    name <> "" /\
    trim name = name /\
    match name with
    | EmptyString => False
    | String c _ => is_white_space c = false
    end.
Proof.
  intros Hin.
  destruct (created_records evs s record Hin) as (s' & now & today & Hacc & ->).
  apply accepts_true in Hacc as (Hname & _ & _).
  exists now, (trim (componentName s')), (or_zero (parseInt (quantity s'))), today.
  split; [reflexivity |]. split; [apply or_zero_is_number |].
  split; [exact Hname |]. split; [apply trim_idempotent |].
  pose proof (trim_head (componentName s')) as Hhead.
  destruct (trim (componentName s')); [contradiction | exact Hhead].
Qed.

(** *** Decimal quantities *)

(** Read the digit at the head of the text being parsed. *)
Ltac read_digit :=
  cbn [NilEmpty.string_of_uint parse_digits Pos.of_uint Pos.of_uint_acc];
  match goal with
  | |- context [radix_digit 10 ?c] =>
      let r := eval vm_compute in (radix_digit 10 c) in
      change (radix_digit 10 c) with r
  end;
  cbn [default from_option id].

Lemma parse_digits_uint_acc (d : Decimal.uint) (acc : positive) :
  parse_digits 10 (NilEmpty.string_of_uint d) (Some (Z.pos acc))
  = Some (Z.pos (Pos.of_uint_acc d acc)).
Proof.
  revert acc.
  induction d; intros acc; [reflexivity | ..];
    read_digit; rewrite <- IHd; do 2 f_equal; lia.
Qed.

Lemma parse_digits_uint (d : Decimal.uint) :
  parse_digits 10 (NilEmpty.string_of_uint d) (Some 0)
  = Some (Z.of_N (Pos.of_uint d)).
Proof.
  induction d; [reflexivity | ..]; read_digit;
    [exact IHd | ..];
    cbn [Z.of_N]; rewrite <- parse_digits_uint_acc; reflexivity.
Qed.

Lemma parse_digits_start (d : Decimal.uint) :
  d <> Decimal.Nil ->
  parse_digits 10 (NilEmpty.string_of_uint d) None
  = parse_digits 10 (NilEmpty.string_of_uint d) (Some 0).
Proof. destruct d; [congruence | ..]; reflexivity. Qed.

Lemma uint_text_is_bare (d : Decimal.uint) :
  d <> Decimal.Nil ->
  trimStart (NilEmpty.string_of_uint d) = NilEmpty.string_of_uint d /\
  strip_sign (NilEmpty.string_of_uint d) = (1, NilEmpty.string_of_uint d) /\
  strip_prefix (NilEmpty.string_of_uint d) = (10, NilEmpty.string_of_uint d).
Proof.
  destruct d as [| d | d | d | d | d | d | d | d | d | d];
    [congruence | ..]; intros _;
    (split; [reflexivity | split; [reflexivity |]]);
    destruct d; reflexivity.
Qed.

Lemma parse_integer_uint (d : Decimal.uint) :
  d <> Decimal.Nil ->
  parse_integer (NilEmpty.string_of_uint d) = Some (Z.of_N (Pos.of_uint d)) /\
  parse_integer (String "-" (NilEmpty.string_of_uint d))
  = Some (- Z.of_N (Pos.of_uint d)).
Proof.
  intros Hd. destruct (uint_text_is_bare d Hd) as (Htrim & Hsign & Hprefix).
  unfold parse_integer. split.
  - rewrite Htrim, Hsign, Hprefix, (parse_digits_start d Hd), parse_digits_uint.
    f_equal; lia.
  - replace (trimStart (String "-" (NilEmpty.string_of_uint d)))
      with (String "-" (NilEmpty.string_of_uint d)) by reflexivity.
    replace (strip_sign (String "-" (NilEmpty.string_of_uint d)))
      with (-1, NilEmpty.string_of_uint d) by reflexivity.
    rewrite Hprefix, (parse_digits_start d Hd), parse_digits_uint.
    f_equal; lia.
Qed.

(** The decimal text of an integer reads back as that integer. *)
Lemma parse_integer_string_of_Z (n : Z) : parse_integer (string_of_Z n) = Some n.
Proof.
  unfold string_of_Z. destruct n as [| p | p]; [reflexivity | |];
    cbn [Z.to_int NilZero.string_of_int];
    pose proof (DecimalPos.Unsigned.to_uint_nonnil p) as Hnil;
    pose proof (DecimalPos.Unsigned.of_to p) as Hvalue;
    destruct (parse_integer_uint (Pos.to_uint p) Hnil) as [Hpos Hneg];
    unfold NilZero.string_of_uint;
    destruct (Pos.to_uint p) eqn:Hd; try congruence;
    rewrite ?Hpos, ?Hneg, Hvalue; reflexivity.
Qed.

Lemma string_of_Z_head (n : Z) :
  exists c rest, string_of_Z n = String c rest /\ is_white_space c = false.
Proof.
  unfold string_of_Z. destruct n as [| p | p]; cbn [Z.to_int NilZero.string_of_int].
  - do 2 eexists. split; reflexivity.
  - pose proof (DecimalPos.Unsigned.to_uint_nonnil p) as Hnil.
    unfold NilZero.string_of_uint.
    destruct (Pos.to_uint p); try congruence; do 2 eexists; split; reflexivity.
  - do 2 eexists. split; reflexivity.
Qed.

Lemma trim_nonempty (c : ascii) (rest : string) :
  is_white_space c = false -> trim (String c rest) <> "".
Proof.
  intros Hc. unfold trim. cbn [trimStart]. rewrite Hc.
  destruct (trimEnd_head c rest Hc) as [rest' ->]. discriminate.
Qed.

(** X10. A quantity typed as the decimal numeral of a safe integer, that is
    one of magnitude below 2^53, negative ones included, is stored as that
    integer: the record the submission creates has exactly that quantity. *)
Theorem decimal_quantity_is_stored
    (s : state) (now : Z) (today : string) (n : Z) :
  Z.abs n < 2 ^ 53 ->
  trim (componentName s) <> "" ->
  isSending s = false ->
  quantity s = string_of_Z n ->
  creates s (ClickSend now today) =
  Some (Rec.to_value (Rec.mk (Some now) (trim (componentName s)) n today)).
Proof.
  intros Hsafe Hname Hfree Hqty.
  assert (Hacc : accepts s = true).
  { apply accepts_true. repeat split; try assumption.
    rewrite Hqty. destruct (string_of_Z_head n) as (c & rest & -> & Hc).
    now apply trim_nonempty. }
  cbn [creates]. rewrite Hacc. unfold newComponent, parseInt.
  rewrite Hqty, parse_integer_string_of_Z, (or_zero_exact n Hsafe). reflexivity.
Qed.

(** *** The exported file *)

Lemma split_head_prefix (sep : ascii) (before after : string) :
  forallb (fun c => negb (Ascii.eqb c sep)) (list_ascii_of_string before) = true ->
  split_head sep (before +:+ String sep after) = before.
Proof.
  induction before as [| c before IH]; intros Hfree.
  - change (split_head sep (String sep after) = "").
    cbn [split_head]. now rewrite Ascii.eqb_refl.
  - change (split_head sep (String c (before +:+ String sep after))
            = String c before).
    cbn [list_ascii_of_string forallb] in Hfree.
    apply andb_true_iff in Hfree as [Hc Hfree].
    apply negb_true_iff in Hc. cbn [split_head]. rewrite Hc. now rewrite (IH Hfree).
Qed.

(** X15. The exported file is named after the date part of the timestamp: for
    a timestamp made of a date without the letter T, a T and a time, the
    export of a non-empty list of records downloads [components-<date>.csv],
    as [text/csv], and changes nothing in the state but the effects. *)
Theorem export_file_is_named_by_date
    (s : state) (date time : string) (cs : list Rec.t) :
  forallb (fun c => negb (Ascii.eqb c "T")) (list_ascii_of_string date) = true ->
  cs <> [] ->
  components s = VArr (map Rec.to_value cs) ->
  exists content,
    dispatch (ClickExport (date +:+ String "T" time)) s =
    perform (Download ("components-" +:+ date +:+ ".csv") "text/csv" content) s.
Proof.
  intros Hdate Hcs Hlist.
  exists (join line_feed (spec_csv_header :: map Rec.spec_csv_line cs)).
  unfold dispatch, handler, exportToCSV. rewrite Hlist.
  unfold bind at 1. cbn [get lift ret String.eqb Ascii.eqb Bool.eqb].
  replace (is_zero _) with false
    by (destruct cs; [contradiction | reflexivity]).
  unfold bind. cbn [array_map lift]. rewrite csv_rows_records.
  cbn [ret]. now rewrite (split_head_prefix "T" date time Hdate).
Qed.

(** *** A submission that throws *)

(** X17. Over a list that cannot be spread (an object, a number, a boolean or
    [null], as an unchecked payload or cached text can leave it), an accepted
    submission throws after it has cleared the form and raised the send flag:
    the typed name and quantity are gone, nothing is added to the list or
    written to the cache, no request is sent, and since no POST is in flight
    to lower the flag, no later submission is accepted. *)
Theorem failed_submission_locks_form
    (s : state) (now : Z) (today : string) (evs : list event) :
  accepts s = true ->
  spread (components s) = None ->
  forallb (fun e => negb (is_send_settled e)) evs = true ->
  let s' := step s (ClickSend now today) in
  returns s (ClickSend now today) = false /\
  componentName s' = "" /\ quantity s' = "" /\ isSending s' = true /\
  components s' = components s /\
  localStorage s' = localStorage s /\
  effects s' = effects s /\
  created s' evs = [] /\
  posted (run s' evs) = posted s.
Proof.
  intros Hacc Hspread Hevs s'. subst s'. unfold returns, step.
  rewrite (handleSend_throws s now today Hacc Hspread). cbn [fst snd].
  repeat split.
  - apply sending_blocks_run; [reflexivity | exact Hevs].
  - now destruct (sending_blocks_run
                    (mkState "" "" (components s) (showList s) true (isLoading s)
                       (isSyncing s) (localStorage s) (effects s))
                    evs eq_refl Hevs) as (_ & -> & _).
Qed.

(** *** Blank fields *)

Lemma trimStart_empty (s : string) :
  trimStart s = "" <-> forallb is_white_space (list_ascii_of_string s) = true.
Proof.
  induction s as [| c rest IH]; cbn [trimStart list_ascii_of_string forallb];
    [tauto |].
  destruct (is_white_space c); cbn [andb]; [exact IH |].
  split; discriminate.
Qed.

Lemma trim_empty (s : string) :
  trim s = "" <-> forallb is_white_space (list_ascii_of_string s) = true.
Proof.
  rewrite <- trimStart_empty. unfold trim. split.
  - intros Htrim. pose proof (trimStart_head s) as Hhead.
    destruct (trimStart s) as [| c rest]; [reflexivity |].
    destruct (trimEnd_head c rest Hhead) as [rest' Heq].
    rewrite Heq in Htrim. discriminate Htrim.
  - now intros ->.
Qed.

(** X18. A submission is rejected, with no change of state and no effect,
    exactly when the name or the quantity is made of white space only (the
    empty text included) or a send is in flight. *)
Theorem submission_rejected_iff_blank (s : state) (now : Z) (today : string) :
  dispatch (ClickSend now today) s = (s, Some tt) <->
  forallb is_white_space (list_ascii_of_string (componentName s)) = true \/
  forallb is_white_space (list_ascii_of_string (quantity s)) = true \/
  isSending s = true.
Proof.
  rewrite <- !trim_empty, <- accepts_false. split.
  - intros Hsame.
    destruct (handleSend_cases s now today)
      as [[Hacc _] | [(Hacc & _ & Heq) | (l & Hacc & _ & Heq)]];
      [exact Hacc | |]; rewrite Heq in Hsame; [discriminate Hsame |].
    apply accepts_true in Hacc as (_ & _ & Hfree).
    injection Hsame as Hsame. apply (f_equal isSending) in Hsame.
    cbn in Hsame. congruence.
  - apply handleSend_rejected.
Qed.

(** *** The first render *)

Lemma mount_state (JSON_parse : string -> option value)
    (stored : gmap string string) :
  exists effs,
    fst (mount JSON_parse (initial stored)) =
    mkState "" "" (components (fst (loadCache JSON_parse (initial stored))))
      false false false true stored effs.
Proof.
  unfold mount, bind, loadCache. cbn [localStorage initial].
  destruct (stored !! "components") as [[| c rest] |];
    try (eexists; reflexivity).
  cbn [truthy_string]. destruct (JSON_parse (String c rest)); eexists; reflexivity.
Qed.

(** X19. Cached records are on screen before the network answers. When the
    stored text parses to an array of records, the render right after the
    mount succeeds, with the syncing line on, the form empty, the send button
    enabled and the toggle reading [Show List (n)] for the [n] cached
    records; after one click on the toggle the panel shows these records, one
    row each, in the cached order. *)
Theorem cached_records_render_at_once
    (JSON_parse : string -> option value)
    (stored : gmap string string) (blob : string) (cs : list Rec.t) :
  JSON_parse "" = None ->
  stored !! "components" = Some blob ->
  JSON_parse blob = Some (VArr (map Rec.to_value cs)) ->
  cs <> [] ->
  let s := session JSON_parse stored [] in
  render s =
    Some (mkView true "" "" false "Send"
            ("Show List (" +:+ string_of_Z (Z.of_nat (length cs)) +:+ ")") None) /\
  render (step s ToggleList) =
    Some (mkView true "" "" false "Send" "Hide List"
            (Some (Rows (map record_row cs)))).
Proof.
  intros Hempty Hstored Hparse Hcs s. subst s. unfold session. cbn [run fold_left].
  destruct (mount_state JSON_parse stored) as [effs ->].
  rewrite (loadCache_components JSON_parse Hempty), Hstored, Hparse.
  cbn [default from_option id]. unfold render, step.
  cbn [dispatch handler setShowList fst showList components isSyncing isSending
       componentName quantity negb get String.eqb Ascii.eqb Bool.eqb].
  rewrite length_map. split; [reflexivity |].
  cbn [mbind option_bind].
  replace (is_zero _) with false by (destruct cs; [contradiction | reflexivity]).
  cbn [array_map]. rewrite render_rows_records. reflexivity.
Qed.

(** X20. Once the cache holds the JSON text of the list, it does so at the end
    of every run, whatever its events and whether or not a handler throws. *)
Theorem cache_stays_in_sync (s : state) (evs : list event) :
  cache_in_sync s -> cache_in_sync (run s evs).
Proof.
  revert s. induction evs as [| e evs IH]; intros s Hsync; [exact Hsync |].
  cbn [run fold_left]. fold (run (step s e) evs).
  apply IH, step_keeps_cache_in_sync, Hsync.
Qed.

(** ** Instances of the further properties *)


Lemma list_of_rows_never_throws_witness :
  let evs := (two_submissions ++
              [ClickExport "2024-01-02T10:20:30.000Z";
               SyncSettled (Payload VNull); ToggleList;
               SyncSettled (Payload (VArr [Rec.to_value remote_R9]))])%list in
  all_return (showing [record_R1]) evs = true /\
  is_list (components (run (showing [record_R1]) evs)) = true /\
  is_Some (render (run (showing [record_R1]) evs)).
Proof.
  apply (list_of_rows_never_throws (showing [record_R1])); reflexivity.
Defined.


Lemma other_events_keep_list_and_storage_witness :
  components (step (showing [record_R1]) (ClickExport "2024-01-02T10:20:30.000Z"))
  = components (showing [record_R1]) /\
  localStorage (step (showing [record_R1]) (ClickExport "2024-01-02T10:20:30.000Z"))
  = localStorage (showing [record_R1]).
Proof.
  apply (other_events_keep_list_and_storage (showing [record_R1])). reflexivity.
Defined.

Lemma run_keeps_other_keys_witness :
  localStorage (run (initial stored_R1) two_submissions) !! "theme"
  = localStorage (initial stored_R1) !! "theme".
Proof.
  apply (run_keeps_other_keys (initial stored_R1) two_submissions "theme").
  discriminate.
Defined.

Lemma alerts_come_from_export_witness :
  Alert "No components to export" ∈ effects (typed "" "") \/
  ("No components to export" = "No components to export" /\
   exists iso, ClickExport iso ∈ [ToggleList; ClickExport "2024-01-02T10:20:30.000Z"]).
Proof.
  apply (alerts_come_from_export (typed "" "")
           [ToggleList; ClickExport "2024-01-02T10:20:30.000Z"]).
  vm_compute. apply list_elem_of_here.
Defined.

Lemma created_records_are_well_formed_witness :
  exists (i : Z) (name : string) (q : value) (date : string),
    Rec.to_value (Rec.mk (Some 1704153600500) "R3" (-4) "1/2/24")
    = VObj [("id", VNum i); ("name", VStr name);
            ("quantity", q); ("dateAdded", VStr date)] /\
    is_number q = true /\
    name <> "" /\
    trim name = name /\
    match name with
    | EmptyString => False
    | String c _ => is_white_space c = false
    end.
Proof.
  apply (created_records_are_well_formed (typed "" "") two_submissions).
  vm_compute. apply list_elem_of_further, list_elem_of_here.
Defined.

Lemma decimal_quantity_is_stored_witness :
  creates (typed " R3 " "-12") (ClickSend 1704153600500 "1/2/24") =
  Some (Rec.to_value (Rec.mk (Some 1704153600500) (trim " R3 ") (-12) "1/2/24")).
Proof.
  apply (decimal_quantity_is_stored (typed " R3 " "-12") 1704153600500 "1/2/24" (-12)).
  - reflexivity.
  - vm_compute. discriminate.
  - reflexivity.
  - reflexivity.
Defined.

Lemma reload_restores_list_witness :
  let s := run (typed "" "") two_submissions in
  components (fst (mount read_json (initial (localStorage s)))) = components s.
Proof.
  apply (reload_restores_list read_json (run (typed "" "") two_submissions)).
  - reflexivity.
  - vm_compute. reflexivity.
  - vm_compute. reflexivity.
Defined.

Lemma render_records_witness :
  exists v,
    render (showing [record_R1; remote_R9]) = Some v /\
    toggle_text v = "Hide List" /\
    list_panel v = Some (Rows (map record_row [record_R1; remote_R9])).
Proof.
  destruct (render_records (showing [record_R1; remote_R9]) [record_R1; remote_R9]
              eq_refl) as (v & Hview & Htoggle & Hpanel & _).
  exists v. split; [exact Hview | split; [exact Htoggle | exact Hpanel]].
Defined.

Lemma null_cache_breaks_render_witness :
  snd (mount read_json (initial stored_null)) = Some tt /\
  components (fst (mount read_json (initial stored_null))) = VNull /\
  render (fst (mount read_json (initial stored_null))) = None /\
  render (step (fst (mount read_json (initial stored_null))) ToggleList) = None.
Proof.
  apply (null_cache_breaks_render read_json stored_null "null"); reflexivity.
Defined.

Lemma export_file_is_named_by_date_witness :
  exists content,
    dispatch (ClickExport ("2024-01-02" +:+ String "T" "10:20:30.000Z"))
      (showing [record_R1]) =
    perform (Download ("components-" +:+ "2024-01-02" +:+ ".csv") "text/csv" content)
      (showing [record_R1]).
Proof.
  apply (export_file_is_named_by_date (showing [record_R1])
           "2024-01-02" "10:20:30.000Z" [record_R1]);
    [reflexivity | discriminate | reflexivity].
Defined.

Lemma no_submission_while_sending_witness :
  let s := step (typed "R2" "3") (ClickSend 1704153600000 "1/2/24") in
  let evs := [ChangeName "R3"; ChangeQuantity "4";
              ClickSend 1704153600001 "1/2/24";
              ClickSend 1704153600002 "1/2/24"] in
  created s evs = [] /\
  posted (run s evs) = posted s /\
  isSending (run s evs) = true.
Proof.
  apply (no_submission_while_sending
           (step (typed "R2" "3") (ClickSend 1704153600000 "1/2/24")));
    reflexivity.
Defined.

Lemma failed_submission_locks_form_witness :
  let s' := step over_error_object (ClickSend 1704153600000 "1/2/24") in
  let evs := [ChangeName "R3"; ChangeQuantity "4";
              ClickSend 1704153600001 "1/2/24"] in
  returns over_error_object (ClickSend 1704153600000 "1/2/24") = false /\
  componentName s' = "" /\ quantity s' = "" /\ isSending s' = true /\
  components s' = components over_error_object /\
  localStorage s' = localStorage over_error_object /\
  effects s' = effects over_error_object /\
  created s' evs = [] /\
  posted (run s' evs) = posted over_error_object.
Proof.
  apply (failed_submission_locks_form over_error_object 1704153600000 "1/2/24");
    reflexivity.
Defined.

Lemma cached_records_render_at_once_witness :
  render (session read_json stored_R1 []) =
    Some (mkView true "" "" false "Send"
            ("Show List (" +:+ string_of_Z (Z.of_nat (length [record_R1])) +:+ ")")
            None) /\
  render (step (session read_json stored_R1 []) ToggleList) =
    Some (mkView true "" "" false "Send" "Hide List"
            (Some (Rows (map record_row [record_R1])))).
Proof.
  apply (cached_records_render_at_once read_json stored_R1
           (JSON_stringify (VArr [Rec.to_value record_R1])) [record_R1]).
  - reflexivity.
  - reflexivity.
  - vm_compute. reflexivity.
  - discriminate.
Defined.

Lemma cache_stays_in_sync_witness :
  cache_in_sync
    (run (step (typed "R2" "3") (ClickSend 1704153600000 "1/2/24"))
       [SendSettled true; ClickExport "2024-01-02T10:20:30.000Z"; ToggleList]).
Proof.
  apply (cache_stays_in_sync
           (step (typed "R2" "3") (ClickSend 1704153600000 "1/2/24"))).
  vm_compute. reflexivity.
Defined.
